(** * Revolved-solid demo scripts (PlayCanvas and BabylonJS starters)

    The two scripts under verification are straight-line asynchronous
    procedures [start] that configure a scene, ask a geometry kernel for a
    wire, a face and a revolved solid, and ask a drawing API to render
    them.  The scripts are embedded as instruction trees over the
    requests they make to their collaborators; the collaborators
    themselves (scene bootstrap, geometry kernel, drawing API, console,
    library constructors) are parameters of the semantics. *)

From Stdlib Require Import QArith Lqa.
From stdpp Require Import gmap strings list fin_maps.

Set Warnings "-register-all".

(** ** Values

    JavaScript values as the scripts use them.  Every number the scripts
    write or compute (5, 3, 5 + 5, 5 + 5 / 2, 3 / 2, -15 / 2, ...) is a
    rational; the sums and halves involved are exact in binary floating
    point, so [Q] represents them without loss.  Arrays and object
    literals that the scripts build once and never assign to are
    immutable values; objects obtained with [new] and then assigned field
    by field live in the store and are denoted by a reference. *)

Definition ref := nat.

Inductive value : Type :=
| VUndefined
| VBool (b : bool)
| VNum (q : Q)
| VStr (s : string)
| VArr (l : list value)
| VRec (fields : list (string * value))
| VRef (r : ref)
| VHandle (n : nat).

(** The store of [new]-allocated objects: a reference is an index, an
    object maps its property names to values. *)
Abbreviation heap := (list (gmap string value)).

(** Property read on an immutable object literal or on a structured result
    such as the [{ scene, app }] returned by the scene bootstrap. *)
Fixpoint assoc (f : string) (fields : list (string * value)) : value :=
  match fields with
  | [] => VUndefined
  | (g, v) :: rest => if String.eqb f g then v else assoc f rest
  end.

Definition field (v : value) (f : string) : value :=
  match v with
  | VRec fields => assoc f fields
  | _ => VUndefined
  end.

(** JavaScript truthiness, used by [if (scene.activeCamera)]. *)
Definition truthy (v : value) : bool :=
  match v with
  | VUndefined => false
  | VBool b => b
  | VNum q => negb (Qeq_bool q 0)
  | VStr s => negb (String.eqb s "")
  | _ => true
  end.

(** ** Points *)

Definition Point3 : Type := Q * Q * Q.

Definition px (p : Point3) : Q := fst (fst p).
Definition py (p : Point3) : Q := snd (fst p).
Definition pz (p : Point3) : Q := snd p.

Definition of_point (p : Point3) : value :=
  VArr [VNum (px p); VNum (py p); VNum (pz p)].

Definition of_points (ps : list Point3) : value := VArr (map of_point ps).

(** ** Requests and instruction trees

    [call] lists the requests the scripts make to code outside of them.
    [prog] is the body of an [async] function: every constructor is one
    statement form, the continuation binds the [const] the statement
    declares.  [Call] is a synchronous call, [Await] is [await f(..)],
    [Detached] is an asynchronous call whose promise is dropped.  [If],
    [While] and [Try] are the structured statements; the scripts use
    [If] once, inside the render-loop callback. *)

Inductive prog : Type :=
| Done
| New (cls : string) (k : value -> prog)
| GetF (o : value) (f : string) (k : value -> prog)
| SetF (o : value) (f : string) (v : value) (k : prog)
| Call (c : call) (k : value -> prog)
| Await (c : call) (k : value -> prog)
| Detached (c : call) (k : prog)
| If (c : value) (t e : prog) (k : prog)
| While (c : call) (body : prog) (k : prog)
| Try (body : prog) (recover : value -> prog) (k : prog)
with call : Type :=
| InitPlayCanvas (options : value)
| InitBabylonJS (options : value)
| NewBitByBitBase
| InitBitByBit (args : list value)
| CreatePolylineWire (bitbybit : value) (inputs : value)
| CreateFaceFromWire (bitbybit : value) (inputs : value)
| Revolve (bitbybit : value) (inputs : value)
| DrawAnyAsync (bitbybit : value) (inputs : value)
| ConsoleLog (msg : string)
| RunRenderLoop (engine : value) (callback : prog)
| ActiveCamera (scene : value)
| SceneRender (scene : value).

Notation "'const' x ':=' m ; k" := (m (fun x => k))
  (at level 10, x name, m at level 10, k at level 200, only parsing).
Notation "'stmt' m ; k" := (m k)
  (at level 10, m at level 10, k at level 200, only parsing).

(** ** Semantics *)

Inductive reply : Type :=
| Ok (v : value)
| Fail (e : value).

(** What an observer of the collaborators sees: a request handed over
    (numbered, together with the store the collaborator can read at that
    moment), and the completion of a request the script waited for. *)
Inductive event : Type :=
| Issued (id : nat) (c : call) (σ : heap)
| Settled (id : nat) (r : reply).

Inductive outcome : Type :=
| Fulfilled
| Rejected (e : value)
| TypeError
| Diverged.

Section Semantics.

(** The collaborators: a world they own, their answer to each request,
    and the fields a library constructor initialises. *)
Context {W : Type}.
Variable handler : call -> heap -> W -> reply * W.
Variable ctor : string -> gmap string value.

Record state : Type := State {
  store : heap;
  world : W;
  trace : list event;
  issued : nat
}.

(** A request that the script waits for. *)
Definition request (c : call) (st : state) : reply * state :=
  let '(r, w) := handler c (store st) (world st) in
  (r, State (store st) w
            (trace st ++ [Issued (issued st) c (store st); Settled (issued st) r])
            (S (issued st))).

(** A request whose completion the script never observes. *)
Definition dispatch (c : call) (st : state) : state :=
  let '(_, w) := handler c (store st) (world st) in
  State (store st) w (trace st ++ [Issued (issued st) c (store st)]) (S (issued st)).

Definition alloc (cls : string) (st : state) : value * state :=
  (VRef (length (store st)),
   State (store st ++ [ctor cls]) (world st) (trace st) (issued st)).

Definition read (o : value) (f : string) (st : state) : option value :=
  match o with
  | VRef r => match store st !! r with
              | Some obj => Some (default VUndefined (obj !! f))
              | None => None
              end
  | VRec fields => Some (assoc f fields)
  | VUndefined => None
  | _ => Some VUndefined
  end.

Definition write (o : value) (f : string) (v : value) (st : state) : option state :=
  match o with
  | VRef r => match store st !! r with
              | Some obj => Some (State (<[r := <[f := v]> obj]> (store st))
                                        (world st) (trace st) (issued st))
              | None => None
              end
  | _ => None
  end.

Definition thrown (o : outcome) : value :=
  match o with
  | Rejected e => e
  | _ => VStr "TypeError"
  end.

Fixpoint run (fuel : nat) (p : prog) (st : state) {struct fuel} : outcome * state :=
  (fix go (p : prog) (st : state) {struct p} : outcome * state :=
     match p with
     | Done => (Fulfilled, st)
     | New cls k => let '(r, st1) := alloc cls st in go (k r) st1
     | GetF o f k =>
         match read o f st with
         | Some v => go (k v) st
         | None => (TypeError, st)
         end
     | SetF o f v k =>
         match write o f v st with
         | Some st1 => go k st1
         | None => (TypeError, st)
         end
     | Call c k | Await c k =>
         match request c st with
         | (Ok v, st1) => go (k v) st1
         | (Fail e, st1) => (Rejected e, st1)
         end
     | Detached c k => go k (dispatch c st)
     | If c t e k =>
         match go (if truthy c then t else e) st with
         | (Fulfilled, st1) => go k st1
         | stop => stop
         end
     | While c body k =>
         match fuel with
         | O => (Diverged, st)
         | S n =>
             match request c st with
             | (Ok v, st1) =>
                 if truthy v then
                   match go body st1 with
                   | (Fulfilled, st2) => run n (While c body k) st2
                   | stop => stop
                   end
                 else go k st1
             | (Fail e, st1) => (Rejected e, st1)
             end
         end
     | Try body recover k =>
         match go body st with
         | (Fulfilled, st1) => go k st1
         | (Diverged, st1) => (Diverged, st1)
         | (o, st1) =>
             match go (recover (thrown o)) st1 with
             | (Fulfilled, st2) => go k st2
             | stop => stop
             end
         end
     end) p st.

End Semantics.

(** ** The PlayCanvas script
    ([examples/vite/playcanvas/starter-template-full/src/2dline.ts]) *)

Module PlayCanvas.

Definition offsetFromAxis : Q := 5.
Definition profileWidth : Q := 5.
Definition profileHeight : Q := 3.

(** The rectangular profile, as the array literal builds it. *)
Definition profile (offsetFromAxis profileWidth profileHeight : Q) : list Point3 :=
  [ (offsetFromAxis, 0, 0);
    (offsetFromAxis, profileHeight, 0);
    (offsetFromAxis + profileWidth, profileHeight, 0);
    (offsetFromAxis + profileWidth, 0, 0);
    (offsetFromAxis, 0, 0) ]%Q.

Definition profilePoints : list Point3 :=
  profile offsetFromAxis profileWidth profileHeight.

Definition start : prog :=
  const sceneOptions := New "Inputs.PlayCanvasScene.InitPlayCanvasDto";
  stmt SetF sceneOptions "canvasId" (VStr "playcanvas-canvas");
  stmt SetF sceneOptions "sceneSize" (VNum 200);
  stmt SetF sceneOptions "enableShadows" (VBool false);
  stmt SetF sceneOptions "enableGround" (VBool true);
  stmt SetF sceneOptions "groundColor" (VStr "#333333");
  stmt SetF sceneOptions "groundCenter" (VArr [VNum 0; VNum (-75); VNum 0]);
  const camera := New "Inputs.PlayCanvasCamera.OrbitCameraDto";
  stmt SetF sceneOptions "orbitCameraOptions" camera;
  const oco := GetF sceneOptions "orbitCameraOptions";
  stmt SetF oco "yaw" (VNum 45);
  const oco := GetF sceneOptions "orbitCameraOptions";
  stmt SetF oco "pitch" (VNum 20);
  const oco := GetF sceneOptions "orbitCameraOptions";
  stmt SetF oco "distance" (VNum 40);
  const oco := GetF sceneOptions "orbitCameraOptions";
  stmt SetF oco "inertiaFactor" (VNum 0.2);

  const init := Call (InitPlayCanvas sceneOptions);
  let scene := field init "scene" in
  let app := field init "app" in
  const bitbybit := Call NewBitByBitBase;

  let options := VRec [("enableOCCT", VBool true);
                       ("enableJSCAD", VBool false);
                       ("enableManifold", VBool false)] in

  const _ := Await (InitBitByBit [app; scene; bitbybit; options]);

  const profileWire := Await (CreatePolylineWire bitbybit
                                (VRec [("points", of_points profilePoints)]));

  const wireDrawOptions := New "Inputs.Draw.DrawOcctShapeOptions";
  stmt SetF wireDrawOptions "edgeColour" (VStr "#ff0000");
  stmt SetF wireDrawOptions "edgeWidth" (VNum 8);
  stmt SetF wireDrawOptions "drawEdges" (VBool true);
  stmt SetF wireDrawOptions "drawFaces" (VBool false);
  const _ := Await (DrawAnyAsync bitbybit
                      (VRec [("entity", profileWire); ("options", wireDrawOptions)]));
  const _ := Call (ConsoleLog "Profile wire drawn.");

  const profileFace := Await (CreateFaceFromWire bitbybit
                                (VRec [("shape", profileWire); ("planar", VBool true)]));

  const revolveOptions := New "Inputs.OCCT.RevolveDto";
  stmt SetF revolveOptions "shape" profileFace;
  stmt SetF revolveOptions "direction" (VArr [VNum 0; VNum 1; VNum 0]);
  stmt SetF revolveOptions "angle" (VNum 360);

  const revolvedSolid := Await (Revolve bitbybit revolveOptions);

  const solidDrawOptions := New "Inputs.Draw.DrawOcctShapeOptions";
  stmt SetF solidDrawOptions "faceColour" (VStr "#4488ff");
  stmt SetF solidDrawOptions "edgeColour" (VStr "#444444");
  stmt SetF solidDrawOptions "edgeWidth" (VNum 0.5);
  stmt SetF solidDrawOptions "drawEdges" (VBool true);
  stmt SetF solidDrawOptions "drawFaces" (VBool false);
  stmt SetF solidDrawOptions "faceOpacity" (VNum 0.3);
  stmt SetF solidDrawOptions "drawTwoSided" (VBool true);
  stmt SetF solidDrawOptions "backFaceOpacity" (VNum 0.3);
  stmt SetF solidDrawOptions "backFaceColour" (VStr "#4488ff");
  const _ := Await (DrawAnyAsync bitbybit
                      (VRec [("entity", revolvedSolid); ("options", solidDrawOptions)]));
  const _ := Call (ConsoleLog "Revolved solid created and drawn.");
  Done.

End PlayCanvas.

(** ** The BabylonJS script ([src/unnamed/part_000]) *)

Module BabylonJS.

Definition offsetFromAxis : Q := 5.
Definition profileWidth : Q := 5.
Definition profileHeight : Q := 3.

(** The notched profile: the rectangle with one extra vertex at its
    centre. *)
Definition profile (offsetFromAxis profileWidth profileHeight : Q) : list Point3 :=
  [ (offsetFromAxis, 0, 0);
    (offsetFromAxis, profileHeight, 0);
    (offsetFromAxis + profileWidth, profileHeight, 0);
    (offsetFromAxis + profileWidth / 2, profileHeight / 2, 0);
    (offsetFromAxis + profileWidth, 0, 0);
    (offsetFromAxis, 0, 0) ]%Q.

Definition profilePoints : list Point3 :=
  profile offsetFromAxis profileWidth profileHeight.

Definition axisHeight : Q := 15.

Definition axisPoints : list Point3 :=
  [ (0, - axisHeight / 2, 0);
    (0, axisHeight / 2, 0) ]%Q.

(** [() => { if (scene.activeCamera) { scene.render(); } }] *)
Definition frame (scene : value) : prog :=
  const camera := Call (ActiveCamera scene);
  stmt If camera
         (const _ := Call (SceneRender scene); Done)
         Done;
  Done.

Definition start : prog :=
  const babylonOptions := New "Inputs.BabylonJSScene.InitBabylonJSDto";
  stmt SetF babylonOptions "canvasId" (VStr "babylon-canvas");
  stmt SetF babylonOptions "sceneSize" (VNum 200);
  stmt SetF babylonOptions "enableShadows" (VBool false);
  stmt SetF babylonOptions "enableGround" (VBool true);
  stmt SetF babylonOptions "groundColor" (VStr "#333333");
  stmt SetF babylonOptions "groundCenter" (VArr [VNum 0; VNum (-75); VNum 0]);
  const camera := New "Inputs.BabylonCamera.ArcRotateCameraDto";
  stmt SetF babylonOptions "arcRotateCameraOptions" camera;
  const arc := GetF babylonOptions "arcRotateCameraOptions";
  stmt SetF arc "alpha" (VNum 45);
  const arc := GetF babylonOptions "arcRotateCameraOptions";
  stmt SetF arc "beta" (VNum 70);
  const arc := GetF babylonOptions "arcRotateCameraOptions";
  stmt SetF arc "radius" (VNum 40);

  const init := Call (InitBabylonJS babylonOptions);
  let scene := field init "scene" in
  let engine := field init "engine" in
  const bitbybit := Call NewBitByBitBase;

  let options := VRec [("enableOCCT", VBool true);
                       ("enableJSCAD", VBool false);
                       ("enableManifold", VBool false)] in

  const _ := Await (InitBitByBit [scene; bitbybit; options]);

  const profileWire := Await (CreatePolylineWire bitbybit
                                (VRec [("points", of_points profilePoints)]));

  const wireDrawOptions := New "Inputs.Draw.DrawOcctShapeOptions";
  stmt SetF wireDrawOptions "edgeColour" (VStr "#ff0000");
  stmt SetF wireDrawOptions "edgeWidth" (VNum 8);
  stmt SetF wireDrawOptions "drawEdges" (VBool true);
  stmt SetF wireDrawOptions "drawFaces" (VBool false);
  const _ := Await (DrawAnyAsync bitbybit
                      (VRec [("entity", profileWire); ("options", wireDrawOptions)]));
  const _ := Call (ConsoleLog "Profile wire drawn.");

  let axisPolyline := VRec [("points", of_points axisPoints)] in

  const axisOptions := New "Inputs.Draw.DrawBasicGeometryOptions";
  stmt SetF axisOptions "colours" (VStr "#ffff00");
  stmt SetF axisOptions "size" (VNum 4);
  const _ := Await (DrawAnyAsync bitbybit
                      (VRec [("entity", axisPolyline); ("options", axisOptions)]));
  const _ := Call (ConsoleLog "Center axis drawn.");

  const profileFace := Await (CreateFaceFromWire bitbybit
                                (VRec [("shape", profileWire); ("planar", VBool true)]));

  const revolveOptions := New "Inputs.OCCT.RevolveDto";
  stmt SetF revolveOptions "shape" profileFace;
  stmt SetF revolveOptions "direction" (VArr [VNum 0; VNum 1; VNum 0]);
  stmt SetF revolveOptions "angle" (VNum 360);

  const revolvedSolid := Await (Revolve bitbybit revolveOptions);

  const solidDrawOptions := New "Inputs.Draw.DrawOcctShapeOptions";
  stmt SetF solidDrawOptions "faceColour" (VStr "#4488ff");
  stmt SetF solidDrawOptions "edgeColour" (VStr "#444444");
  stmt SetF solidDrawOptions "edgeWidth" (VNum 0.5);
  stmt SetF solidDrawOptions "drawEdges" (VBool true);
  stmt SetF solidDrawOptions "drawFaces" (VBool true);
  stmt SetF solidDrawOptions "faceOpacity" (VNum 0.3);
  const _ := Await (DrawAnyAsync bitbybit
                      (VRec [("entity", revolvedSolid); ("options", solidDrawOptions)]));
  const _ := Call (ConsoleLog "Revolved solid created and drawn.");

  const _ := Call (RunRenderLoop engine (frame scene));
  Done.

End BabylonJS.


(** ** Running a script from scratch

    The only top-level statement of either module is [start();]: the body
    runs once, from an empty store and an empty trace.  The promise that
    call returns is dropped; [result] is how it settles, so [Rejected e]
    is an unhandled rejection with reason [e]. *)

Definition boot {W : Type} (w : W) : @state W := State [] w [] 0.

Definition execute {W : Type} (handler : call -> heap -> W -> reply * W)
  (ctor : string -> gmap string value) (fuel : nat) (p : prog) (w : W)
  : outcome * @state W :=
  run handler ctor fuel p (boot w).

Definition result {W : Type} (handler : call -> heap -> W -> reply * W)
  (ctor : string -> gmap string value) (fuel : nat) (p : prog) (w : W) : outcome :=
  fst (execute handler ctor fuel p w).

Definition log {W : Type} (handler : call -> heap -> W -> reply * W)
  (ctor : string -> gmap string value) (fuel : nat) (p : prog) (w : W) : list event :=
  trace (snd (execute handler ctor fuel p w)).

Definition final_store {W : Type} (handler : call -> heap -> W -> reply * W)
  (ctor : string -> gmap string value) (fuel : nat) (p : prog) (w : W) : heap :=
  store (snd (execute handler ctor fuel p w)).

(** ** Reading a trace *)

(** A request with the store its collaborator could read and, when the
    script waited for it, the answer. *)
Record exchange : Type := Exchange {
  asked : call;
  seen : heap;
  answer : option reply
}.

Fixpoint reply_of (id : nat) (tr : list event) : option reply :=
  match tr with
  | [] => None
  | Settled id' r :: rest => if Nat.eqb id id' then Some r else reply_of id rest
  | Issued _ _ _ :: rest => reply_of id rest
  end.

Fixpoint exchanges (tr : list event) : list exchange :=
  match tr with
  | [] => []
  | Issued id c σ :: rest => Exchange c σ (reply_of id rest) :: exchanges rest
  | Settled _ _ :: rest => exchanges rest
  end.

Definition calls (tr : list event) : list call := map asked (exchanges tr).

Definition is_wire (c : call) : bool :=
  match c with CreatePolylineWire _ _ => true | _ => false end.

Definition is_face (c : call) : bool :=
  match c with CreateFaceFromWire _ _ => true | _ => false end.

Definition is_revolve (c : call) : bool :=
  match c with Revolve _ _ => true | _ => false end.

Definition is_geometry (c : call) : bool := is_wire c || is_face c || is_revolve c.

Definition is_draw (c : call) : bool :=
  match c with DrawAnyAsync _ _ => true | _ => false end.

Definition is_loop (c : call) : bool :=
  match c with RunRenderLoop _ _ => true | _ => false end.

(** The exchanges with the geometry kernel, in the order they were issued. *)
Definition geometry (tr : list event) : list exchange :=
  List.filter (fun x => is_geometry (asked x)) (exchanges tr).

(** The values a kind of request produced. *)
Definition made (kind : call -> bool) (tr : list event) : list value :=
  flat_map (fun x => match answer x with
                     | Some (Ok v) => if kind (asked x) then [v] else []
                     | _ => []
                     end) (exchanges tr).

(** *** Overlap

    [in_flight pending tr] replays [tr] from a moment when the requests
    [pending] are awaiting their completion.  It is [None] when some
    request is issued while another one is still in flight, and otherwise
    the requests still in flight at the end. *)
Fixpoint in_flight (pending : list nat) (tr : list event) : option (list nat) :=
  match tr with
  | [] => Some pending
  | Issued id _ _ :: rest =>
      match pending with
      | [] => in_flight [id] rest
      | _ :: _ => None
      end
  | Settled id _ :: rest =>
      in_flight (List.filter (fun j => negb (Nat.eqb j id)) pending) rest
  end.

Definition overlap_free (tr : list event) : Prop := in_flight [] tr = Some [].

(** *** Failures *)

Definition failure_free (tr : list event) : Prop :=
  forall id e, Settled id (Fail e) ∉ tr.

(** How a run's result relates to the events it added: a rejection is the
    last event, it is the only failure, and it carries the collaborator's
    error as it is. *)
Definition verdict (o : outcome) (new : list event) : Prop :=
  match o with
  | Rejected e => exists pre id, new = pre ++ [Settled id (Fail e)] /\ failure_free pre
  | _ => failure_free new
  end.

(** *** The geometry pipeline

    The shapes a run's geometry exchanges can take: each stage is asked
    for with the answer of the stage before it, as it was returned. *)
Inductive pipeline : list exchange -> Prop :=
| pipeline_idle : pipeline []
| pipeline_wire bb inputs σ1 r :
    pipeline [Exchange (CreatePolylineWire bb inputs) σ1 (Some r)]
| pipeline_face bb inputs σ1 wire σ2 r :
    pipeline
      [Exchange (CreatePolylineWire bb inputs) σ1 (Some (Ok wire));
       Exchange (CreateFaceFromWire bb (VRec [("shape", wire); ("planar", VBool true)]))
                σ2 (Some r)]
| pipeline_revolve bb inputs σ1 wire σ2 face σ3 dto (obj : gmap string value) r :
    σ3 !! dto = Some obj ->
    obj !! "shape" = Some face ->
    pipeline
      [Exchange (CreatePolylineWire bb inputs) σ1 (Some (Ok wire));
       Exchange (CreateFaceFromWire bb (VRec [("shape", wire); ("planar", VBool true)]))
                σ2 (Some (Ok face));
       Exchange (Revolve bb (VRef dto)) σ3 (Some r)].

(** *** Drawing requests *)

(** The entity and the style record of every drawing request. *)
Definition drawn (tr : list event) : list (value * value) :=
  flat_map (fun x => match asked x with
                     | DrawAnyAsync _ inputs =>
                         [(field inputs "entity", field inputs "options")]
                     | _ => []
                     end) (exchanges tr).

(** The entities [layers] are drawn once each, in this order, every one
    with a style record of its own in the store. *)
Definition layered (tr : list event) (layers : list value) : Prop :=
  exists styles : list ref,
    drawn tr = zip layers (map VRef styles)
    /\ length styles = length layers
    /\ NoDup styles.

(** The exchanges after the first revolve request. *)
Fixpoint since_revolve (xs : list exchange) : list exchange :=
  match xs with
  | [] => []
  | x :: rest => if is_revolve (asked x) then rest else since_revolve rest
  end.

(** The inputs of the wire requests. *)
Definition wire_inputs (tr : list event) : list value :=
  flat_map (fun c => match c with CreatePolylineWire _ inputs => [inputs] | _ => [] end)
           (calls tr).

(** References to store objects that requests hand to the geometry kernel
    and to the drawing API as style records. *)
Definition geometry_refs (tr : list event) : list ref :=
  flat_map (fun c => match c with Revolve _ (VRef r) => [r] | _ => [] end) (calls tr).

Definition style_refs (tr : list event) : list ref :=
  flat_map (fun d => match snd d with VRef r => [r] | _ => [] end) (drawn tr).

(** The option record a revolve request saw is the same in the store [σ]. *)
Definition kept (σ : heap) (x : exchange) : Prop :=
  match asked x with
  | Revolve _ (VRef r) => seen x !! r = σ !! r
  | _ => True
  end.

(** *** The render loop *)

(** The exchanges from the first request to start the render loop on. *)
Fixpoint from_loop (xs : list exchange) : list exchange :=
  match xs with
  | [] => []
  | x :: rest => if is_loop (asked x) then x :: rest else from_loop rest
  end.

(** The exchanges before it. *)
Fixpoint before_loop (xs : list exchange) : list exchange :=
  match xs with
  | [] => []
  | x :: rest => if is_loop (asked x) then [] else x :: before_loop rest
  end.

Definition answered (x : exchange) : Prop := exists v, answer x = Some (Ok v).

(** ** Shape of the code *)

Inductive construct : Type := Branching | Looping | Catching | Detaching.

(** [free_of deep K p]: the construct [K] occurs nowhere in [p], whatever
    values its [const]s are bound to; with [deep], not in the bodies of
    the callbacks [p] passes either. *)
Fixpoint free_of (deep : bool) (K : construct) (p : prog) {struct p} : Prop :=
  match p with
  | Done => True
  | New _ k | GetF _ _ k => forall v, free_of deep K (k v)
  | SetF _ _ _ k => free_of deep K k
  | Call c k | Await c k => free_in_call deep K c /\ forall v, free_of deep K (k v)
  | Detached c k => K <> Detaching /\ free_in_call deep K c /\ free_of deep K k
  | If _ t e k =>
      K <> Branching /\ free_of deep K t /\ free_of deep K e /\ free_of deep K k
  | While c body k =>
      K <> Looping /\ free_in_call deep K c /\ free_of deep K body /\ free_of deep K k
  | Try body recover k =>
      K <> Catching /\ free_of deep K body /\ (forall v, free_of deep K (recover v))
      /\ free_of deep K k
  end
with free_in_call (deep : bool) (K : construct) (c : call) {struct c} : Prop :=
  match c with
  | RunRenderLoop _ callback => if deep then free_of deep K callback else True
  | _ => True
  end.

(** ** Geometry of the profile *)

Definition closed (ps : list Point3) : Prop :=
  exists p, head ps = Some p /\ last ps = Some p.

Definition to_point (v : value) : option Point3 :=
  match v with
  | VArr [VNum x; VNum y; VNum z] => Some (x, y, z)
  | _ => None
  end.

Definition dot (p q : Point3) : Q := (px p * px q + py p * py q + pz p * pz q)%Q.

(** Squared distance of [p] from the line through the origin along [d]. *)
Definition axis_distance2 (d p : Point3) : Q :=
  ((dot p p * dot d d - dot p d * dot p d) / dot d d)%Q.

(** The point at parameter [t] of the segment from [p] to [q]. *)
Definition lerp (t : Q) (p q : Point3) : Point3 :=
  (px p + t * (px q - px p), py p + t * (py q - py p), pz p + t * (pz q - pz p))%Q.

Definition edges (ps : list Point3) : list (Point3 * Point3) := zip ps (tail ps).

(** The x-coordinates of [ps] range over exactly [lo, hi]. *)
Definition x_span (ps : list Point3) (lo hi : Q) : Prop :=
  Forall (fun p => lo <= px p <= hi)%Q ps
  /\ Exists (fun p => px p == lo)%Q ps
  /\ Exists (fun p => px p == hi)%Q ps.

(** The points of the closed polyline through [ps]. *)
Definition on_boundary (ps : list Point3) (p : Point3) : Prop :=
  exists a b t, (a, b) ∈ edges ps /\ (0 <= t <= 1)%Q /\ p = lerp t a b.

(** Seen from the axis along [d], the polyline through [ps] lies between
    the radii [inner] and [outer] and reaches both: these are the radii of
    the ring a full turn about the axis sweeps. *)
Definition ring (ps : list Point3) (d : Point3) (inner outer : Q) : Prop :=
  (forall p, on_boundary ps p -> inner ^ 2 <= axis_distance2 d p <= outer ^ 2)%Q
  /\ (exists p, on_boundary ps p /\ axis_distance2 d p == inner ^ 2)%Q
  /\ (exists p, on_boundary ps p /\ axis_distance2 d p == outer ^ 2)%Q.

(** ** Properties of a script *)

Definition scripts : list prog := [PlayCanvas.start; BabylonJS.start].

(** Inputs of a wire request that name a closed profile of at least three
    points; inputs that name a profile in the plane z = 0. *)
Definition sound_profile (inputs : value) : Prop :=
  exists ps, inputs = VRec [("points", of_points ps)] /\ closed ps /\ 3 <= length ps.

Definition planar_profile (inputs : value) : Prop :=
  exists ps, inputs = VRec [("points", of_points ps)] /\ Forall (fun p => pz p = 0%Q) ps.

(** In every run that completes, the script draws the entities
    [layers wire solid] once each, every one with a style record of its
    own, where [wire] and [solid] are what the wire and the revolve
    request returned. *)
Definition draws_layers (p : prog) (layers : value -> value -> list value) : Prop :=
  forall (W : Type) (handler : call -> heap -> W -> reply * W)
         (ctor : string -> gmap string value) (fuel : nat) (w : W),
    result handler ctor fuel p w = Fulfilled ->
    exists wire solid,
      made is_wire (log handler ctor fuel p w) = [wire]
      /\ made is_revolve (log handler ctor fuel p w) = [solid]
      /\ layered (log handler ctor fuel p w) (layers wire solid).

(** In every run that completes, the script has asked for the render loop
    once, and that was its last request. *)
Definition loop_started_last (p : prog) : Prop :=
  forall (W : Type) (handler : call -> heap -> W -> reply * W)
         (ctor : string -> gmap string value) (fuel : nat) (w : W),
    result handler ctor fuel p w = Fulfilled ->
    exists x, from_loop (exchanges (log handler ctor fuel p w)) = [x].



(** ** Sample collaborators *)

Module Ideal.

(** Collaborators that always answer: the scene bootstrap returns its
    record of handles, every other request a fresh handle.  The world is
    the number of handles given out. *)
Definition handler (c : call) (σ : heap) (n : nat) : reply * nat :=
  match c with
  | InitPlayCanvas _ =>
      (Ok (VRec [("scene", VHandle n); ("app", VHandle (S n))]), S (S n))
  | InitBabylonJS _ =>
      (Ok (VRec [("scene", VHandle n); ("engine", VHandle (S n))]), S (S n))
  | ConsoleLog _ | RunRenderLoop _ _ | SceneRender _ => (Ok VUndefined, n)
  | _ => (Ok (VHandle n), S n)
  end.

Definition ctor (cls : string) : gmap string value := ∅.

End Ideal.

Module Faulty.

(** As [Ideal], except that the kernel refuses to build the face. *)
Definition handler (c : call) (σ : heap) (n : nat) : reply * nat :=
  match c with
  | CreateFaceFromWire _ _ => (Fail (VStr "wire is not planar"), n)
  | _ => Ideal.handler c σ n
  end.

End Faulty.

(** ** The whole conversation of a run *)

Definition is_boot (c : call) : bool :=
  match c with InitPlayCanvas _ | InitBabylonJS _ => true | _ => false end.

Definition is_new (c : call) : bool :=
  match c with NewBitByBitBase => true | _ => false end.

Definition is_answered (x : exchange) : bool :=
  match answer x with Some (Ok _) => true | _ => false end.

(** What the first answered request of a kind returned ([undefined] when
    there is none). *)
Definition received (kind : call -> bool) (tr : list event) : value :=
  hd VUndefined (made kind tr).

(** The requests of a complete run of each script, in the order of its
    text, as functions of what the scene bootstrap, the [BitByBitBase]
    constructor and the three geometry requests returned. *)
Definition playcanvas_requests (init bitbybit wire face solid : value) : list call :=
  [ InitPlayCanvas (VRef 0);
    NewBitByBitBase;
    InitBitByBit [field init "app"; field init "scene"; bitbybit;
                  VRec [("enableOCCT", VBool true);
                        ("enableJSCAD", VBool false);
                        ("enableManifold", VBool false)]];
    CreatePolylineWire bitbybit (VRec [("points", of_points PlayCanvas.profilePoints)]);
    DrawAnyAsync bitbybit (VRec [("entity", wire); ("options", VRef 2)]);
    ConsoleLog "Profile wire drawn.";
    CreateFaceFromWire bitbybit (VRec [("shape", wire); ("planar", VBool true)]);
    Revolve bitbybit (VRef 3);
    DrawAnyAsync bitbybit (VRec [("entity", solid); ("options", VRef 4)]);
    ConsoleLog "Revolved solid created and drawn." ].

Definition babylon_requests (init bitbybit wire face solid : value) : list call :=
  [ InitBabylonJS (VRef 0);
    NewBitByBitBase;
    InitBitByBit [field init "scene"; bitbybit;
                  VRec [("enableOCCT", VBool true);
                        ("enableJSCAD", VBool false);
                        ("enableManifold", VBool false)]];
    CreatePolylineWire bitbybit (VRec [("points", of_points BabylonJS.profilePoints)]);
    DrawAnyAsync bitbybit (VRec [("entity", wire); ("options", VRef 2)]);
    ConsoleLog "Profile wire drawn.";
    DrawAnyAsync bitbybit
      (VRec [("entity", VRec [("points", of_points BabylonJS.axisPoints)]);
             ("options", VRef 3)]);
    ConsoleLog "Center axis drawn.";
    CreateFaceFromWire bitbybit (VRec [("shape", wire); ("planar", VBool true)]);
    Revolve bitbybit (VRef 4);
    DrawAnyAsync bitbybit (VRec [("entity", solid); ("options", VRef 5)]);
    ConsoleLog "Revolved solid created and drawn.";
    RunRenderLoop (field init "engine") (BabylonJS.frame (field init "scene")) ].

(** A run follows [requests]: what it asked is a beginning of the list, built
    from the answers it got; every request but the last one was answered;
    and a run that completes asked all of it and got every answer. *)
Definition follows (requests : value -> value -> value -> value -> value -> list call)
  (o : outcome) (tr : list event) : Prop :=
  let expected :=
    requests (received is_boot tr) (received is_new tr) (received is_wire tr)
             (received is_face tr) (received is_revolve tr) in
  calls tr `prefix_of` expected
  /\ forallb is_answered (removelast (exchanges tr)) = true
  /\ (o = Fulfilled -> calls tr = expected /\ forallb is_answered (exchanges tr) = true).

(** ** Option records *)

(** An object after the assignments [fields], made in this order, on top of
    what the constructor left in it. *)
Definition configure (base : gmap string value) (fields : list (string * value))
  : gmap string value :=
  fold_left (fun obj fv => <[fst fv := snd fv]> obj) fields base.

(** [obj] answers every field of [fields] with the value assigned to it and
    every other field as [base] does. *)
Definition overrides (base obj : gmap string value) (fields : list (string * value))
  : Prop :=
  (forall k v, (k, v) ∈ fields -> obj !! k = Some v)
  /\ (forall k, k ∉ map fst fields -> obj !! k = base !! k).

(** The records each script allocates, in the order of its [new]s: the
    class, and the assignments the script makes to the record.  [face] is
    what the face request returned. *)
Definition playcanvas_records (face : value) : list (string * list (string * value)) :=
  [ ("Inputs.PlayCanvasScene.InitPlayCanvasDto",
      [("canvasId", VStr "playcanvas-canvas");
       ("sceneSize", VNum 200);
       ("enableShadows", VBool false);
       ("enableGround", VBool true);
       ("groundColor", VStr "#333333");
       ("groundCenter", VArr [VNum 0; VNum (-75); VNum 0]);
       ("orbitCameraOptions", VRef 1)]);
    ("Inputs.PlayCanvasCamera.OrbitCameraDto",
      [("yaw", VNum 45); ("pitch", VNum 20); ("distance", VNum 40);
       ("inertiaFactor", VNum 0.2)]);
    ("Inputs.Draw.DrawOcctShapeOptions",
      [("edgeColour", VStr "#ff0000"); ("edgeWidth", VNum 8);
       ("drawEdges", VBool true); ("drawFaces", VBool false)]);
    ("Inputs.OCCT.RevolveDto",
      [("shape", face);
       ("direction", VArr [VNum 0; VNum 1; VNum 0]);
       ("angle", VNum 360)]);
    ("Inputs.Draw.DrawOcctShapeOptions",
      [("faceColour", VStr "#4488ff"); ("edgeColour", VStr "#444444");
       ("edgeWidth", VNum 0.5); ("drawEdges", VBool true);
       ("drawFaces", VBool false); ("faceOpacity", VNum 0.3);
       ("drawTwoSided", VBool true); ("backFaceOpacity", VNum 0.3);
       ("backFaceColour", VStr "#4488ff")]) ].

Definition babylon_records (face : value) : list (string * list (string * value)) :=
  [ ("Inputs.BabylonJSScene.InitBabylonJSDto",
      [("canvasId", VStr "babylon-canvas");
       ("sceneSize", VNum 200);
       ("enableShadows", VBool false);
       ("enableGround", VBool true);
       ("groundColor", VStr "#333333");
       ("groundCenter", VArr [VNum 0; VNum (-75); VNum 0]);
       ("arcRotateCameraOptions", VRef 1)]);
    ("Inputs.BabylonCamera.ArcRotateCameraDto",
      [("alpha", VNum 45); ("beta", VNum 70); ("radius", VNum 40)]);
    ("Inputs.Draw.DrawOcctShapeOptions",
      [("edgeColour", VStr "#ff0000"); ("edgeWidth", VNum 8);
       ("drawEdges", VBool true); ("drawFaces", VBool false)]);
    ("Inputs.Draw.DrawBasicGeometryOptions",
      [("colours", VStr "#ffff00"); ("size", VNum 4)]);
    ("Inputs.OCCT.RevolveDto",
      [("shape", face);
       ("direction", VArr [VNum 0; VNum 1; VNum 0]);
       ("angle", VNum 360)]);
    ("Inputs.Draw.DrawOcctShapeOptions",
      [("faceColour", VStr "#4488ff"); ("edgeColour", VStr "#444444");
       ("edgeWidth", VNum 0.5); ("drawEdges", VBool true);
       ("drawFaces", VBool true); ("faceOpacity", VNum 0.3)]) ].

(** The store in which every record of [records] is as its constructor
    made it, with its assignments. *)
Definition built (ctor : string -> gmap string value)
  (records : list (string * list (string * value))) : heap :=
  map (fun r => configure (ctor (fst r)) (snd r)) records.

(** How the store of a run relates to the records of its script: it holds
    a beginning of them, all of them when the run completes; the first
    request, the scene bootstrap, sees the first two. *)
Definition holds_records {W : Type} (handler : call -> heap -> W -> reply * W)
  (ctor : string -> gmap string value) (fuel : nat) (p : prog) (w : W)
  (records : value -> list (string * list (string * value))) : Prop :=
  let expected := built ctor (records (received is_face (log handler ctor fuel p w))) in
  final_store handler ctor fuel p w `prefix_of` expected
  /\ option_map seen (head (exchanges (log handler ctor fuel p w)))
     = Some (take 2 expected)
  /\ (result handler ctor fuel p w = Fulfilled ->
      final_store handler ctor fuel p w = expected).

(** No record changes once a collaborator has seen the store: what a
    request saw is a beginning of the store at the end of the run. *)
Definition frozen {W : Type} (handler : call -> heap -> W -> reply * W)
  (ctor : string -> gmap string value) (fuel : nat) (p : prog) (w : W) : Prop :=
  Forall (fun x => seen x `prefix_of` final_store handler ctor fuel p w)
         (exchanges (log handler ctor fuel p w)).

(** ** Console messages *)

Definition messages (tr : list event) : list string :=
  flat_map (fun c => match c with ConsoleLog m => [m] | _ => [] end) (calls tr).

(** Every console message comes right after a drawing request that was
    answered; [drawn_ok] tells whether the exchange just before was one. *)
Fixpoint reported (drawn_ok : bool) (xs : list exchange) : bool :=
  match xs with
  | [] => true
  | x :: rest =>
      match asked x with
      | ConsoleLog _ => drawn_ok && reported false rest
      | DrawAnyAsync _ _ => reported (is_answered x) rest
      | _ => reported false rest
      end
  end.

(** ** Revolve and drawing requests, one by one *)

Definition revolve_requests (tr : list event) : list exchange :=
  List.filter (fun x => is_revolve (asked x)) (exchanges tr).

(** A revolve request that hands over a record of the store which asks for
    a turn of [angle] degrees about the direction [d]. *)
Definition revolves_about (d : Point3) (angle : Q) (x : exchange) : Prop :=
  exists bitbybit r (obj : gmap string value),
    asked x = Revolve bitbybit (VRef r)
    /\ seen x !! r = Some obj
    /\ obj !! "direction" = Some (of_point d)
    /\ obj !! "angle" = Some (VNum angle).

(** The drawing requests made after the revolve request. *)
Definition draws_since_revolve (tr : list event) : list exchange :=
  List.filter (fun x => is_draw (asked x)) (since_revolve (exchanges tr)).

(** A drawing request for [entity] that hands over a style record of the
    store of which [P] holds. *)
Definition draws_with (entity : value) (P : gmap string value -> Prop) (x : exchange)
  : Prop :=
  exists bitbybit r (obj : gmap string value),
    asked x = DrawAnyAsync bitbybit (VRec [("entity", entity); ("options", VRef r)])
    /\ seen x !! r = Some obj
    /\ P obj.

(** A run completes unless a collaborator fails, and then that failure is
    its last event. *)
Definition completes_unless_failed (o : outcome) (tr : list event) : Prop :=
  o = Fulfilled \/ exists id e, o = Rejected e /\ last tr = Some (Settled id (Fail e)).

(** ** What a style record shows *)

Definition flag (style : gmap string value) (k : string) : bool :=
  match style !! k with
  | Some v => truthy v
  | None => false
  end.

Definition attribute (style : gmap string value) (k : string) : value :=
  default VUndefined (style !! k).

(** What is visible of a drawn shape: for its faces and for its edges,
    nothing or the attributes they are painted with. *)
Record look : Type := Look {
  face_layer : option (value * value);
  edge_layer : option (value * value)
}.

(** Modelled from the spec: how the drawing API reads a style record is not
    under src/.  The spec describes a style record as colours, edge width,
    opacity and "face/edge visibility toggles": the faces of a shape are
    visible, in [faceColour] at [faceOpacity], exactly when [drawFaces] is
    set, and its edges, in [edgeColour] at [edgeWidth], exactly when
    [drawEdges] is set. *)
Definition rendered (style : gmap string value) : look :=
  Look (if flag style "drawFaces"
        then Some (attribute style "faceColour", attribute style "faceOpacity")
        else None)
       (if flag style "drawEdges"
        then Some (attribute style "edgeColour", attribute style "edgeWidth")
        else None).

(** A style that shows edges only, whatever face colour and face opacity
    it is given. *)
Definition edges_only (style : gmap string value) : Prop :=
  face_layer (rendered style) = None
  /\ edge_layer (rendered style)
     = Some (attribute style "edgeColour", attribute style "edgeWidth")
  /\ forall colour opacity,
       rendered (<["faceColour" := colour]> (<["faceOpacity" := opacity]> style))
       = rendered style.
(** ** Unfolding equations of [run] *)

Section RunEquations.

Context {W : Type}.
Variable handler : call -> heap -> W -> reply * W.
Variable ctor : string -> gmap string value.

Implicit Types st : @state W.

Lemma run_Done fuel st : run handler ctor fuel Done st = (Fulfilled, st).
Proof. destruct fuel; reflexivity. Qed.

Lemma run_New fuel cls k st :
  run handler ctor fuel (New cls k) st
  = run handler ctor fuel (k (VRef (length (store st))))
        (State (store st ++ [ctor cls]) (world st) (trace st) (issued st)).
Proof. destruct fuel; reflexivity. Qed.

Lemma run_GetF fuel o f k st :
  run handler ctor fuel (GetF o f k) st
  = match read o f st with
    | Some v => run handler ctor fuel (k v) st
    | None => (TypeError, st)
    end.
Proof. destruct fuel; reflexivity. Qed.

Lemma run_SetF fuel o f v k st :
  run handler ctor fuel (SetF o f v k) st
  = match write o f v st with
    | Some st1 => run handler ctor fuel k st1
    | None => (TypeError, st)
    end.
Proof. destruct fuel; reflexivity. Qed.

Lemma run_Call fuel c k st :
  run handler ctor fuel (Call c k) st
  = match request handler c st with
    | (Ok v, st1) => run handler ctor fuel (k v) st1
    | (Fail e, st1) => (Rejected e, st1)
    end.
Proof. destruct fuel; reflexivity. Qed.

Lemma run_Await fuel c k st :
  run handler ctor fuel (Await c k) st
  = match request handler c st with
    | (Ok v, st1) => run handler ctor fuel (k v) st1
    | (Fail e, st1) => (Rejected e, st1)
    end.
Proof. destruct fuel; reflexivity. Qed.

Lemma run_Detached fuel c k st :
  run handler ctor fuel (Detached c k) st = run handler ctor fuel k (dispatch handler c st).
Proof. destruct fuel; reflexivity. Qed.

Lemma run_If fuel c t e k st :
  run handler ctor fuel (If c t e k) st
  = match run handler ctor fuel (if truthy c then t else e) st with
    | (Fulfilled, st1) => run handler ctor fuel k st1
    | stop => stop
    end.
Proof. destruct fuel; reflexivity. Qed.

Lemma run_Try fuel body h k st :
  run handler ctor fuel (Try body h k) st
  = match run handler ctor fuel body st with
    | (Fulfilled, st1) => run handler ctor fuel k st1
    | (Diverged, st1) => (Diverged, st1)
    | (o, st1) =>
        match run handler ctor fuel (h (thrown o)) st1 with
        | (Fulfilled, st2) => run handler ctor fuel k st2
        | stop => stop
        end
    end.
Proof. destruct fuel; reflexivity. Qed.

Lemma run_While_O c body k st :
  run handler ctor 0 (While c body k) st = (Diverged, st).
Proof. reflexivity. Qed.

Lemma run_While_S fuel c body k st :
  run handler ctor (S fuel) (While c body k) st
  = match request handler c st with
    | (Ok v, st1) =>
        if truthy v then
          match run handler ctor (S fuel) body st1 with
          | (Fulfilled, st2) => run handler ctor fuel (While c body k) st2
          | stop => stop
          end
        else run handler ctor (S fuel) k st1
    | (Fail e, st1) => (Rejected e, st1)
    end.
Proof. reflexivity. Qed.

(** The same equations as proof rules: to establish a property [Q] of
    a run it suffices to establish it of the run that remains after
    the first statement.  A request splits into the case where the
    collaborator answers and the case where it fails. *)

Section Rules.

Variable Q : outcome * @state W -> Prop.

Lemma wp_Done fuel st : Q (Fulfilled, st) -> Q (run handler ctor fuel Done st).
Proof. by rewrite run_Done. Qed.

Lemma wp_New fuel cls k σ σ' r w tr n :
  length σ = r ->
  σ ++ [ctor cls] = σ' ->
  Q (run handler ctor fuel (k (VRef r)) (State σ' w tr n)) ->
  Q (run handler ctor fuel (New cls k) (State σ w tr n)).
Proof. intros <- <-. by rewrite run_New. Qed.

Lemma wp_GetF fuel r f k σ obj v w tr n :
  σ !! r = Some obj ->
  obj !! f = Some v ->
  Q (run handler ctor fuel (k v) (State σ w tr n)) ->
  Q (run handler ctor fuel (GetF (VRef r) f k) (State σ w tr n)).
Proof.
  intros Hr Hf. rewrite run_GetF. unfold read. cbn [store].
  by rewrite Hr, Hf.
Qed.

Lemma wp_SetF fuel r f v k σ σ' obj w tr n :
  σ !! r = Some obj ->
  <[r := <[f := v]> obj]> σ = σ' ->
  Q (run handler ctor fuel k (State σ' w tr n)) ->
  Q (run handler ctor fuel (SetF (VRef r) f v k) (State σ w tr n)).
Proof.
  intros Hr <-. rewrite run_SetF. unfold write. cbn [store].
  by rewrite Hr.
Qed.

Lemma wp_Call fuel c k σ w tr tr1 n :
  (forall r, tr ++ [Issued n c σ; Settled n r] = tr1 r) ->
  (forall e w1, Q (Rejected e, State σ w1 (tr1 (Fail e)) (S n))) ->
  (forall v w1, Q (run handler ctor fuel (k v) (State σ w1 (tr1 (Ok v)) (S n)))) ->
  Q (run handler ctor fuel (Call c k) (State σ w tr n)).
Proof.
  intros Htr Hfail Hok. rewrite run_Call. unfold request.
  cbn [store world trace issued].
  destruct (handler c σ w) as [[v|e] w1]; rewrite Htr; auto.
Qed.

Lemma wp_Await fuel c k σ w tr tr1 n :
  (forall r, tr ++ [Issued n c σ; Settled n r] = tr1 r) ->
  (forall e w1, Q (Rejected e, State σ w1 (tr1 (Fail e)) (S n))) ->
  (forall v w1, Q (run handler ctor fuel (k v) (State σ w1 (tr1 (Ok v)) (S n)))) ->
  Q (run handler ctor fuel (Await c k) (State σ w tr n)).
Proof.
  intros Htr Hfail Hok. rewrite run_Await. unfold request.
  cbn [store world trace issued].
  destruct (handler c σ w) as [[v|e] w1]; rewrite Htr; auto.
Qed.

End Rules.

End RunEquations.


(** ** What every run satisfies *)

Lemma in_flight_app pending a b :
  in_flight pending (a ++ b)
  = match in_flight pending a with
    | Some q => in_flight q b
    | None => None
    end.
Proof.
  revert pending. induction a as [|[id c σ|id r] a IH]; intros pending; simpl.
  - reflexivity.
  - destruct pending; [apply IH | reflexivity].
  - apply IH.
Qed.

Lemma overlap_free_request tr n c σ r :
  overlap_free tr -> overlap_free (tr ++ [Issued n c σ; Settled n r]).
Proof.
  unfold overlap_free. intros H. rewrite in_flight_app, H. simpl.
  by rewrite Nat.eqb_refl.
Qed.

Lemma failure_free_nil : failure_free [].
Proof. intros id e H. by apply elem_of_nil in H. Qed.

Lemma failure_free_app a b : failure_free a -> failure_free b -> failure_free (a ++ b).
Proof.
  intros Ha Hb id e H. apply elem_of_app in H as [H|H]; [by eapply Ha | by eapply Hb].
Qed.

Lemma failure_free_answered n c σ v : failure_free [Issued n c σ; Settled n (Ok v)].
Proof.
  intros id e H. apply elem_of_cons in H as [H|H]; [discriminate|].
  apply elem_of_cons in H as [H|H]; [discriminate|]. by apply elem_of_nil in H.
Qed.

Lemma failure_free_issued n c σ : failure_free [Issued n c σ].
Proof.
  intros id e H. apply elem_of_cons in H as [H|H]; [discriminate|].
  by apply elem_of_nil in H.
Qed.

Lemma verdict_prepend a o b : failure_free a -> verdict o b -> verdict o (a ++ b).
Proof.
  intros Ha. destruct o; simpl; try (by apply failure_free_app).
  intros (pre & id & -> & Hpre). exists (a ++ pre), id.
  split; [by rewrite app_assoc | by apply failure_free_app].
Qed.

Section Runs.

Context {W : Type}.
Variable handler : call -> heap -> W -> reply * W.
Variable ctor : string -> gmap string value.

Implicit Types st : @state W.

Lemma write_trace o f v st st1 : write o f v st = Some st1 -> trace st1 = trace st.
Proof.
  unfold write. destruct o; try discriminate.
  destruct (store st !! r); [|discriminate]. by intros [= <-].
Qed.

(** A script that awaits every request it issues never has two requests in
    flight, and has none in flight when it ends. *)
Lemma run_overlap_free fuel p st :
  free_of false Detaching p ->
  overlap_free (trace st) ->
  overlap_free (trace (snd (run handler ctor fuel p st))).
Proof.
  revert p st. induction fuel as [|n IHn]; intros p;
    induction p as [|cls k IHk|o f k IHk|o f v k IHk|c k IHk|c k IHk|c k IHk
                   |c t IHt e IHe k IHk|c body IHb k IHk|body IHb recover IHr k IHk];
    intros st Hfree Hst; simpl in Hfree.
  all: try (rewrite run_Done; exact Hst).
  all: try (rewrite run_New; apply IHk; [apply Hfree | exact Hst]).
  all: try (rewrite run_GetF; destruct (read o f st); [apply IHk; [apply Hfree | exact Hst] | exact Hst]).
  all: try (rewrite run_SetF; destruct (write o f v st) as [st1|] eqn:E;
            [apply IHk; [exact Hfree | by rewrite (write_trace _ _ _ _ _ E)] | exact Hst]).
  all: try (first [rewrite run_Call | rewrite run_Await]; unfold request;
            destruct (handler c (store st) (world st)) as [[v|e] w1];
            [apply IHk; [apply Hfree | by apply overlap_free_request]
            | by apply overlap_free_request]).
  all: try (by destruct Hfree as [[] _]).
  all: try (rewrite run_If; destruct Hfree as (_ & Ht & He & Hk);
            assert (H1 : overlap_free (trace (snd (run handler ctor _ (if truthy c then t else e) st))))
              by (destruct (truthy c); [by apply IHt | by apply IHe]);
            destruct (run handler ctor _ (if truthy c then t else e) st) as [[] st1];
            simpl in *; try exact H1; by apply IHk).
  all: try (rewrite run_Try; destruct Hfree as (_ & Hb & Hr & Hk);
            specialize (IHb st Hb Hst);
            destruct (run handler ctor _ body st) as [o1 st1]; simpl in IHb;
            destruct o1; try (by apply IHk); try exact IHb;
            (match goal with
             | |- context [run handler ctor ?f (?rec ?x) st1] =>
                 specialize (IHr x st1 (Hr x) IHb);
                 destruct (run handler ctor f (rec x) st1) as [[] st2];
                 simpl in *; try exact IHr; by apply IHk
             end)).
  - by rewrite run_While_O.
  - rewrite run_While_S. destruct Hfree as (Hne & Hc & Hb & Hk). unfold request.
    destruct (handler c (store st) (world st)) as [[v|e] w1];
      [|by apply overlap_free_request].
    set (st1 := State _ _ _ _).
    assert (H1 : overlap_free (trace st1)) by (by apply overlap_free_request).
    destruct (truthy v); [|by apply IHk].
    specialize (IHb st1 Hb H1).
    destruct (run handler ctor (S n) body st1) as [[] st2]; simpl in IHb |- *;
      try exact IHb.
    apply IHn; [simpl; repeat split; assumption | exact IHb].
Qed.

(** A script without a [try] adds events to the trace, and ends as
    [verdict] says: rejected exactly when a request failed, at that
    request, with its error. *)
Lemma run_verdict fuel p st :
  free_of false Catching p ->
  exists new,
    trace (snd (run handler ctor fuel p st)) = trace st ++ new
    /\ verdict (fst (run handler ctor fuel p st)) new.
Proof.
  assert (Hnil : forall st0 : @state W, exists new : list event,
             trace st0 = trace st0 ++ new /\ failure_free new).
  { intros st0. exists []. split; [by rewrite app_nil_r | apply failure_free_nil]. }
  assert (Hseq : forall (st0 st1 : @state W) a (x : outcome * @state W),
             (exists new, trace (snd x) = trace st1 ++ new /\ verdict (fst x) new) ->
             trace st1 = trace st0 ++ a -> failure_free a ->
             exists new, trace (snd x) = trace st0 ++ new /\ verdict (fst x) new).
  { intros st0 st1 a x (new & E' & Hv) E Ha. exists (a ++ new). split.
    - by rewrite E', E, app_assoc.
    - by apply verdict_prepend. }
  assert (Hfail : forall (st0 : @state W) c e, exists new,
             trace st0 ++ [Issued (issued st0) c (store st0); Settled (issued st0) (Fail e)]
             = trace st0 ++ new
             /\ verdict (Rejected e) new).
  { intros st0 c e. eexists; split; [reflexivity|]. simpl.
    exists [Issued (issued st0) c (store st0)], (issued st0).
    split; [reflexivity | apply failure_free_issued]. }
  revert p st. induction fuel as [|n IHn]; intros p;
    induction p as [|cls k IHk|o f k IHk|o f v k IHk|c k IHk|c k IHk|c k IHk
                   |c t IHt e IHe k IHk|c body IHb k IHk|body IHb recover IHr k IHk];
    intros st Hfree; simpl in Hfree.
  all: try (rewrite run_Done; apply Hnil).
  all: try (rewrite run_New;
            eapply (Hseq st _ []);
            [apply IHk, Hfree | simpl; by rewrite app_nil_r | apply failure_free_nil]).
  all: try (rewrite run_GetF; destruct (read o f st); [apply IHk, Hfree | apply Hnil]).
  all: try (rewrite run_SetF; destruct (write o f v st) as [st1|] eqn:E; [|apply Hnil];
            eapply (Hseq st st1 []);
            [apply IHk, Hfree | by rewrite app_nil_r, (write_trace _ _ _ _ _ E)
            | apply failure_free_nil]).
  all: try (first [rewrite run_Call | rewrite run_Await]; unfold request;
            destruct (handler c (store st) (world st)) as [[v|e] w1];
            [ eapply Hseq; [apply IHk, Hfree | reflexivity | apply failure_free_answered]
            | by apply Hfail ]).
  all: try (rewrite run_Detached; unfold dispatch;
            destruct (handler c (store st) (world st)) as [r w1];
            eapply Hseq; [apply IHk, Hfree | reflexivity | apply failure_free_issued]).
  all: try (by destruct Hfree as [[] _]).
  all: try (rewrite run_If; destruct Hfree as (_ & Ht & He & Hk);
            assert (H1 : exists new,
                       trace (snd (run handler ctor _ (if truthy c then t else e) st))
                       = trace st ++ new
                       /\ verdict (fst (run handler ctor _ (if truthy c then t else e) st)) new)
              by (destruct (truthy c); [by apply IHt | by apply IHe]);
            destruct (run handler ctor _ (if truthy c then t else e) st) as [[] st1];
            simpl in H1; try exact H1;
            destruct H1 as (a & E & Ha); eapply Hseq; [by apply IHk | exact E | exact Ha]).
  - by rewrite run_While_O.
  - rewrite run_While_S. destruct Hfree as (Hne & Hc & Hb & Hk). unfold request.
    destruct (handler c (store st) (world st)) as [[v|e] w1]; [|by apply Hfail].
    set (st1 := State _ _ _ _).
    eapply (Hseq st st1); [|reflexivity | apply failure_free_answered].
    destruct (truthy v); [|by apply IHk].
    destruct (IHb st1 Hb) as (a & E & Ha).
    destruct (run handler ctor (S n) body st1) as [[] st2]; simpl in E, Ha;
      try (exists a; split; [exact E | exact Ha]).
    eapply Hseq; [|exact E | exact Ha].
    apply IHn. simpl. repeat split; assumption.
Qed.

End Runs.

(** ** The two scripts *)

(** Symbolic execution of a script whose statements are allocations, field
    assignments through a reference, and awaited or synchronous requests.
    It leaves one goal for every way the run can end. *)
Ltac wp_step :=
  lazymatch goal with
  | |- _ (run _ _ _ ?p _) =>
      lazymatch p with
      | Done => apply wp_Done
      | New _ _ => eapply wp_New; [ simpl; reflexivity | simpl; reflexivity | ]
      | SetF _ _ _ _ => eapply wp_SetF; [ simpl; reflexivity | simpl; reflexivity | ]
      | GetF _ _ _ => eapply wp_GetF; [ simpl; reflexivity | apply lookup_insert_eq | ]
      | Call _ _ => eapply wp_Call; [ intros ?; simpl; reflexivity | intros ? ? | intros ? ? ]
      | Await _ _ => eapply wp_Await; [ intros ?; simpl; reflexivity | intros ? ? | intros ? ? ]
      end
  end;
  cbv beta zeta.

Ltac wp_script start :=
  unfold log, result, execute, boot, start;
  lazymatch goal with
  | |- context [run ?h ?c ?f ?p ?st] => pattern (run h c f p st)
  end;
  lazymatch goal with
  | |- ?Q0 _ => let Q := fresh "Q" in set (Q := Q0); repeat wp_step; subst Q
  end;
  cbv beta iota;
  cbn [fst snd trace store].

(** Reading a field of an object built by successive assignments. *)
Ltac object_lookup :=
  repeat (rewrite lookup_insert_ne by discriminate);
  apply lookup_insert_eq.

(** A number is none of the members of a list of other numbers. *)
Ltac not_among :=
  let H := fresh in
  intros H; apply list_elem_of_In in H; simpl in H;
  repeat (destruct H as [H|H]; [discriminate H|]); destruct H.

Ltac read_trace :=
  cbn [geometry exchanges reply_of calls made drawn wire_inputs
       since_revolve geometry_refs style_refs
       from_loop before_loop kept length
       List.filter flat_map map app asked seen answer fst snd
       is_geometry is_wire is_face is_revolve is_draw is_loop orb negb
       Nat.eqb field assoc String.eqb Ascii.eqb Bool.eqb].

Ltac read_solid :=
  cbn [revolve_requests draws_since_revolve since_revolve drawn received made hd
       exchanges reply_of List.filter flat_map app asked seen answer fst snd
       is_revolve is_draw is_wire Nat.eqb length field assoc
       String.eqb Ascii.eqb Bool.eqb].

(** Every exchange of a list hands over a record of the store whose fields
    are as wanted. *)
Ltac all_hand_over :=
  repeat (apply Forall_cons_2;
          [eexists _, _, _; split; [reflexivity|]; split; [reflexivity|];
           repeat split; object_lookup|]);
  apply Forall_nil_2.

Section Scripts.

Context {W : Type}.
Variable handler : call -> heap -> W -> reply * W.
Variable ctor : string -> gmap string value.

(** *** PlayCanvas *)

Lemma playcanvas_shape deep K : free_of deep K PlayCanvas.start.
Proof. cbn. intuition. Qed.

Lemma playcanvas_settles fuel w :
  result handler ctor fuel PlayCanvas.start w = Fulfilled
  \/ exists e, result handler ctor fuel PlayCanvas.start w = Rejected e.
Proof.
  wp_script PlayCanvas.start.
  all: first [by left | right; by eexists].
Qed.

Lemma playcanvas_pipeline fuel w :
  pipeline (geometry (log handler ctor fuel PlayCanvas.start w))
  /\ (result handler ctor fuel PlayCanvas.start w = Fulfilled ->
      length (geometry (log handler ctor fuel PlayCanvas.start w)) = 3).
Proof.
  wp_script PlayCanvas.start.
  all: read_trace.
  all: split; [| intros E; first [discriminate E | reflexivity]].
  all: try (by constructor).
  all: econstructor; [reflexivity | object_lookup].
Qed.

Lemma playcanvas_wire_request fuel w :
  let inputs := VRec [("points", of_points PlayCanvas.profilePoints)] in
  (wire_inputs (log handler ctor fuel PlayCanvas.start w) = []
   \/ wire_inputs (log handler ctor fuel PlayCanvas.start w) = [inputs])
  /\ (result handler ctor fuel PlayCanvas.start w = Fulfilled ->
      wire_inputs (log handler ctor fuel PlayCanvas.start w) = [inputs]).
Proof.
  wp_script PlayCanvas.start.
  all: read_trace.
  all: split; [auto | intros E; first [discriminate E | reflexivity]].
Qed.

Lemma playcanvas_drawn fuel w :
  length (drawn (log handler ctor fuel PlayCanvas.start w)) <= 2
  /\ (result handler ctor fuel PlayCanvas.start w = Fulfilled ->
      exists wire solid,
        made is_wire (log handler ctor fuel PlayCanvas.start w) = [wire]
        /\ made is_revolve (log handler ctor fuel PlayCanvas.start w) = [solid]
        /\ drawn (log handler ctor fuel PlayCanvas.start w)
           = [(wire, VRef 2); (solid, VRef 4)]).
Proof.
  wp_script PlayCanvas.start.
  all: read_trace.
  all: split; [simpl; lia | intros E; try discriminate E].
  eexists _, _. repeat split; reflexivity.
Qed.

Lemma playcanvas_no_loop fuel w :
  from_loop (exchanges (log handler ctor fuel PlayCanvas.start w)) = [].
Proof.
  wp_script PlayCanvas.start.
  all: read_trace.
  all: reflexivity.
Qed.


Lemma playcanvas_solid fuel w :
  Forall (revolves_about (0, 1, 0)%Q 360)
         (revolve_requests (log handler ctor fuel PlayCanvas.start w))
  /\ Forall (draws_with (received is_revolve (log handler ctor fuel PlayCanvas.start w))
               (fun obj => obj !! "drawFaces" = Some (VBool false)
                           /\ obj !! "drawEdges" = Some (VBool true)
                           /\ obj !! "faceColour" = Some (VStr "#4488ff")
                           /\ obj !! "faceOpacity" = Some (VNum 0.3)))
            (draws_since_revolve (log handler ctor fuel PlayCanvas.start w))
  /\ (result handler ctor fuel PlayCanvas.start w = Fulfilled ->
      length (revolve_requests (log handler ctor fuel PlayCanvas.start w)) = 1
      /\ length (draws_since_revolve (log handler ctor fuel PlayCanvas.start w)) = 1).
Proof.
  wp_script PlayCanvas.start.
  all: read_solid.
  all: split; [all_hand_over|]; split; [all_hand_over|].
  all: intros E; first [discriminate E | split; reflexivity].
Qed.

(** *** BabylonJS *)

Lemma babylon_shape K : free_of false K BabylonJS.start.
Proof. cbn. intuition. Qed.

Lemma babylon_shape_deep K : K <> Branching -> free_of true K BabylonJS.start.
Proof. intros HK. cbn. intuition. Qed.

Lemma babylon_settles fuel w :
  result handler ctor fuel BabylonJS.start w = Fulfilled
  \/ exists e, result handler ctor fuel BabylonJS.start w = Rejected e.
Proof.
  wp_script BabylonJS.start.
  all: first [by left | right; by eexists].
Qed.

Lemma babylon_pipeline fuel w :
  pipeline (geometry (log handler ctor fuel BabylonJS.start w))
  /\ (result handler ctor fuel BabylonJS.start w = Fulfilled ->
      length (geometry (log handler ctor fuel BabylonJS.start w)) = 3).
Proof.
  wp_script BabylonJS.start.
  all: read_trace.
  all: split; [| intros E; first [discriminate E | reflexivity]].
  all: try (by constructor).
  all: econstructor; [reflexivity | object_lookup].
Qed.

Lemma babylon_wire_request fuel w :
  let inputs := VRec [("points", of_points BabylonJS.profilePoints)] in
  (wire_inputs (log handler ctor fuel BabylonJS.start w) = []
   \/ wire_inputs (log handler ctor fuel BabylonJS.start w) = [inputs])
  /\ (result handler ctor fuel BabylonJS.start w = Fulfilled ->
      wire_inputs (log handler ctor fuel BabylonJS.start w) = [inputs]).
Proof.
  wp_script BabylonJS.start.
  all: read_trace.
  all: split; [auto | intros E; first [discriminate E | reflexivity]].
Qed.

Lemma babylon_drawn fuel w :
  length (drawn (log handler ctor fuel BabylonJS.start w)) <= 3
  /\ (result handler ctor fuel BabylonJS.start w = Fulfilled ->
      exists wire solid,
        made is_wire (log handler ctor fuel BabylonJS.start w) = [wire]
        /\ made is_revolve (log handler ctor fuel BabylonJS.start w) = [solid]
        /\ drawn (log handler ctor fuel BabylonJS.start w)
           = [(wire, VRef 2);
              (VRec [("points", of_points BabylonJS.axisPoints)], VRef 3);
              (solid, VRef 5)]).
Proof.
  wp_script BabylonJS.start.
  all: read_trace.
  all: split; [simpl; lia | intros E; try discriminate E].
  eexists _, _. repeat split; reflexivity.
Qed.

Lemma babylon_loop fuel w :
  let xs := exchanges (log handler ctor fuel BabylonJS.start w) in
  (from_loop xs = []
   \/ exists engine scene σ r,
        from_loop xs = [Exchange (RunRenderLoop engine (BabylonJS.frame scene)) σ r]
        /\ Forall answered (before_loop xs)
        /\ length (List.filter (fun x => is_geometry (asked x)) (before_loop xs)) = 3
        /\ length (List.filter (fun x => is_draw (asked x)) (before_loop xs)) = 3)
  /\ (result handler ctor fuel BabylonJS.start w = Fulfilled -> from_loop xs <> []).
Proof.
  wp_script BabylonJS.start.
  all: read_trace.
  all: split; [| intros E; first [discriminate E | discriminate]].
  all: first [by left | right].
  all: eexists _, _, _, _; split; [reflexivity|].
  all: split; [repeat constructor; by eexists | split; reflexivity].
Qed.


Lemma babylon_solid fuel w :
  Forall (revolves_about (0, 1, 0)%Q 360)
         (revolve_requests (log handler ctor fuel BabylonJS.start w))
  /\ Forall (draws_with (received is_revolve (log handler ctor fuel BabylonJS.start w))
               (fun obj => obj !! "drawFaces" = Some (VBool true)
                           /\ obj !! "drawEdges" = Some (VBool true)
                           /\ obj !! "faceColour" = Some (VStr "#4488ff")
                           /\ obj !! "faceOpacity" = Some (VNum 0.3)))
            (draws_since_revolve (log handler ctor fuel BabylonJS.start w))
  /\ (result handler ctor fuel BabylonJS.start w = Fulfilled ->
      length (revolve_requests (log handler ctor fuel BabylonJS.start w)) = 1
      /\ length (draws_since_revolve (log handler ctor fuel BabylonJS.start w)) = 1)
  /\ drawn (log handler ctor fuel BabylonJS.start w)
     `prefix_of` [(received is_wire (log handler ctor fuel BabylonJS.start w), VRef 2);
                  (VRec [("points", of_points BabylonJS.axisPoints)], VRef 3);
                  (received is_revolve (log handler ctor fuel BabylonJS.start w), VRef 5)].
Proof.
  wp_script BabylonJS.start.
  all: read_solid.
  all: split; [all_hand_over|]; split; [all_hand_over|].
  all: split; [|eexists; reflexivity].
  all: intros E; first [discriminate E | split; reflexivity].
Qed.

(** A script without a handler that ends completed or rejected completes
    unless a collaborator failed. *)
Lemma completes_or_fails p fuel w :
  free_of false Catching p ->
  (result handler ctor fuel p w = Fulfilled
   \/ exists e, result handler ctor fuel p w = Rejected e) ->
  completes_unless_failed (result handler ctor fuel p w) (log handler ctor fuel p w).
Proof.
  intros Hfree [H | [e H]]; [by left | right].
  destruct (run_verdict handler ctor fuel p (boot w) Hfree) as (new & E & Hv).
  unfold log, result, execute in *. simpl in E. rewrite H in Hv. simpl in Hv.
  destruct Hv as (pre & id & -> & _).
  exists id, e. split; [exact H|]. rewrite E. apply last_snoc.
Qed.

End Scripts.

(** ** The profiles *)

Lemma only_request {A : Type} (l : list A) (x : A) :
  l = [] \/ l = [x] -> Forall (fun y => y = x) l.
Proof. intros [-> | ->]; repeat constructor. Qed.

Lemma playcanvas_profile_closed o w h :
  closed (PlayCanvas.profile o w h) /\ 3 <= length (PlayCanvas.profile o w h).
Proof. split; [by exists (o, 0, 0)%Q | simpl; lia]. Qed.

Lemma babylon_profile_closed o w h :
  closed (BabylonJS.profile o w h) /\ 3 <= length (BabylonJS.profile o w h).
Proof. split; [by exists (o, 0, 0)%Q | simpl; lia]. Qed.

Lemma playcanvas_profile_planar o w h :
  Forall (fun p => pz p = 0%Q) (PlayCanvas.profile o w h).
Proof. repeat constructor. Qed.

Lemma babylon_profile_planar o w h :
  Forall (fun p => pz p = 0%Q) (BabylonJS.profile o w h).
Proof. repeat constructor. Qed.

Lemma axis_distance2_Y p :
  (axis_distance2 (0, 1, 0)%Q p == px p * px p + pz p * pz p)%Q.
Proof.
  destruct p as [[x y] z]. unfold axis_distance2, dot, px, py, pz. simpl.
  field.
Qed.

Lemma playcanvas_x_span : x_span PlayCanvas.profilePoints 5 10.
Proof.
  unfold x_span, PlayCanvas.profilePoints, PlayCanvas.profile,
    PlayCanvas.offsetFromAxis, PlayCanvas.profileWidth, PlayCanvas.profileHeight.
  split; [|split].
  - repeat (apply Forall_cons_2; [split; apply Qle_bool_imp_le; reflexivity|]).
    apply Forall_nil_2.
  - apply Exists_cons_hd. reflexivity.
  - do 2 apply Exists_cons_tl. apply Exists_cons_hd. reflexivity.
Qed.

Lemma babylon_x_span : x_span BabylonJS.profilePoints 5 10.
Proof.
  unfold x_span, BabylonJS.profilePoints, BabylonJS.profile,
    BabylonJS.offsetFromAxis, BabylonJS.profileWidth, BabylonJS.profileHeight.
  split; [|split].
  - repeat (apply Forall_cons_2; [split; apply Qle_bool_imp_le; reflexivity|]).
    apply Forall_nil_2.
  - apply Exists_cons_hd. reflexivity.
  - do 2 apply Exists_cons_tl. apply Exists_cons_hd. reflexivity.
Qed.

Ltac on_edge H :=
  apply list_elem_of_In in H; simpl in H;
  repeat (destruct H as [H|H]; [injection H as <- <-|]); [..|destruct H].

Lemma playcanvas_ring : ring PlayCanvas.profilePoints (0, 1, 0)%Q 5 10.
Proof.
  split; [|split].
  - intros p (a & b & t & Hab & Ht & ->). rewrite axis_distance2_Y.
    on_edge Hab; unfold lerp, px, pz; simpl;
      unfold PlayCanvas.offsetFromAxis, PlayCanvas.profileWidth, PlayCanvas.profileHeight;
      nra.
  - exists (5, 0, 0)%Q. split; [|reflexivity].
    exists (5, 0, 0)%Q, (5, 3, 0)%Q, 0%Q. split; [|split; [lra|]].
    + apply list_elem_of_In. left. reflexivity.
    + reflexivity.
  - exists (10, 3, 0)%Q. split; [|reflexivity].
    exists (5, 3, 0)%Q, (10, 3, 0)%Q, 1%Q. split; [|split; [lra|]].
    + apply list_elem_of_In. right. left. reflexivity.
    + reflexivity.
Qed.

Lemma babylon_ring : ring BabylonJS.profilePoints (0, 1, 0)%Q 5 10.
Proof.
  split; [|split].
  - intros p (a & b & t & Hab & Ht & ->). rewrite axis_distance2_Y.
    on_edge Hab; unfold lerp, px, pz; simpl;
      unfold BabylonJS.offsetFromAxis, BabylonJS.profileWidth, BabylonJS.profileHeight;
      change (5 / 2)%Q with (5 # 2)%Q; nra.
  - exists (5, 0, 0)%Q. split; [|reflexivity].
    exists (5, 0, 0)%Q, (5, 3, 0)%Q, 0%Q. split; [|split; [lra|]].
    + apply list_elem_of_In. left. reflexivity.
    + reflexivity.
  - exists (10, 3, 0)%Q. split; [|reflexivity].
    exists (5, 3, 0)%Q, (10, 3, 0)%Q, 1%Q. split; [|split; [lra|]].
    + apply list_elem_of_In. right. left. reflexivity.
    + reflexivity.
Qed.

(** ** Style records *)

Lemma draws_with_impl entity (P R : gmap string value -> Prop) x :
  (forall obj, P obj -> R obj) -> draws_with entity P x -> draws_with entity R x.
Proof.
  intros HPR (bb & r & obj & Ha & Hs & HP). exists bb, r, obj. auto.
Qed.

Lemma hidden_faces (obj : gmap string value) :
  obj !! "drawFaces" = Some (VBool false) ->
  obj !! "drawEdges" = Some (VBool true) ->
  edges_only obj.
Proof.
  intros Hf He. unfold edges_only, rendered, flag, attribute.
  split; [by rewrite Hf|]. split; [by rewrite He|].
  intros colour opacity.
  assert (Hk : forall k, "faceColour" <> k -> "faceOpacity" <> k ->
                 <["faceColour" := colour]> (<["faceOpacity" := opacity]> obj) !! k
                 = obj !! k)
    by (intros k H1 H2; by rewrite !lookup_insert_ne).
  rewrite (Hk "drawFaces"), (Hk "drawEdges"), (Hk "edgeColour"), (Hk "edgeWidth")
    by discriminate.
  by rewrite Hf, He.
Qed.

Lemma shown_faces (obj : gmap string value) colour opacity :
  obj !! "drawFaces" = Some (VBool true) ->
  obj !! "faceColour" = Some colour ->
  obj !! "faceOpacity" = Some opacity ->
  face_layer (rendered obj) = Some (colour, opacity).
Proof.
  intros Hf Hc Ho. unfold rendered, flag, attribute. by rewrite Hf, Hc, Ho.
Qed.

(** ** The claims *)

Section Claims.

Context {W : Type}.
Variable handler : call -> heap -> W -> reply * W.
Variable ctor : string -> gmap string value.

(** C1: in both scripts the profile is closed (its first and its last
    point are equal) and has at least 3 points, and it is this profile,
    unchanged, that every wire-construction request carries; a run that
    completes made exactly one such request. *)
Theorem profile_closed_nondegenerate fuel w :
  (closed PlayCanvas.profilePoints
   /\ 3 <= length PlayCanvas.profilePoints
   /\ Forall (fun inputs => inputs = VRec [("points", of_points PlayCanvas.profilePoints)])
             (wire_inputs (log handler ctor fuel PlayCanvas.start w))
   /\ (result handler ctor fuel PlayCanvas.start w = Fulfilled ->
       length (wire_inputs (log handler ctor fuel PlayCanvas.start w)) = 1))
  /\ (closed BabylonJS.profilePoints
      /\ 3 <= length BabylonJS.profilePoints
      /\ Forall (fun inputs => inputs = VRec [("points", of_points BabylonJS.profilePoints)])
                (wire_inputs (log handler ctor fuel BabylonJS.start w))
      /\ (result handler ctor fuel BabylonJS.start w = Fulfilled ->
          length (wire_inputs (log handler ctor fuel BabylonJS.start w)) = 1)).
Proof.
  split.
  - destruct (playcanvas_wire_request handler ctor fuel w) as [Hany Hdone].
    repeat split; try apply playcanvas_profile_closed.
    + by apply only_request.
    + intros E. by rewrite (Hdone E).
  - destruct (babylon_wire_request handler ctor fuel w) as [Hany Hdone].
    repeat split; try apply babylon_profile_closed.
    + by apply only_request.
    + intros E. by rewrite (Hdone E).
Qed.

(** C5: whatever the offset, width and height, every point of either
    profile has z = 0, and every wire-construction request of a run
    carries the script's profile. *)
Theorem profile_in_plane fuel w :
  (forall o wd h, Forall (fun p => pz p = 0%Q) (PlayCanvas.profile o wd h))
  /\ (forall o wd h, Forall (fun p => pz p = 0%Q) (BabylonJS.profile o wd h))
  /\ Forall planar_profile (wire_inputs (log handler ctor fuel PlayCanvas.start w))
  /\ Forall planar_profile (wire_inputs (log handler ctor fuel BabylonJS.start w)).
Proof.
  split; [apply playcanvas_profile_planar|].
  split; [apply babylon_profile_planar|].
  split.
  - destruct (playcanvas_wire_request handler ctor fuel w) as [Hany _].
    eapply Forall_impl; [by apply only_request|].
    intros ? ->. eexists. split; [reflexivity | apply playcanvas_profile_planar].
  - destruct (babylon_wire_request handler ctor fuel w) as [Hany _].
    eapply Forall_impl; [by apply only_request|].
    intros ? ->. eexists. split; [reflexivity | apply babylon_profile_planar].
Qed.

(** C4: with offsetFromAxis = 5, width = 5 and height = 3 the
    x-coordinates of either profile span exactly [5, 10], and about the Y
    axis the profile lies between the radii 5 and 10 and reaches both,
    which are the inner and outer radius of the ring a full turn sweeps.
    In every run the wire is built from this profile, the face from that
    wire, and every revolve request hands over that face in an option
    record with direction [0, 1, 0] and angle 360.  A run completes unless
    a collaborator fails, and a run that completes has made exactly one
    wire request and exactly one revolve request. *)
Theorem ring_scenario fuel w :
  (PlayCanvas.profilePoints = PlayCanvas.profile 5 5 3
   /\ x_span PlayCanvas.profilePoints 5 10
   /\ ring PlayCanvas.profilePoints (0, 1, 0)%Q 5 10
   /\ Forall (fun inputs => inputs = VRec [("points", of_points PlayCanvas.profilePoints)])
             (wire_inputs (log handler ctor fuel PlayCanvas.start w))
   /\ pipeline (geometry (log handler ctor fuel PlayCanvas.start w))
   /\ Forall (revolves_about (0, 1, 0)%Q 360)
             (revolve_requests (log handler ctor fuel PlayCanvas.start w))
   /\ (result handler ctor fuel PlayCanvas.start w = Fulfilled ->
       length (wire_inputs (log handler ctor fuel PlayCanvas.start w)) = 1
       /\ length (revolve_requests (log handler ctor fuel PlayCanvas.start w)) = 1)
   /\ completes_unless_failed (result handler ctor fuel PlayCanvas.start w)
                              (log handler ctor fuel PlayCanvas.start w))
  /\ (BabylonJS.profilePoints = BabylonJS.profile 5 5 3
      /\ x_span BabylonJS.profilePoints 5 10
      /\ ring BabylonJS.profilePoints (0, 1, 0)%Q 5 10
      /\ Forall (fun inputs => inputs = VRec [("points", of_points BabylonJS.profilePoints)])
                (wire_inputs (log handler ctor fuel BabylonJS.start w))
      /\ pipeline (geometry (log handler ctor fuel BabylonJS.start w))
      /\ Forall (revolves_about (0, 1, 0)%Q 360)
                (revolve_requests (log handler ctor fuel BabylonJS.start w))
      /\ (result handler ctor fuel BabylonJS.start w = Fulfilled ->
          length (wire_inputs (log handler ctor fuel BabylonJS.start w)) = 1
          /\ length (revolve_requests (log handler ctor fuel BabylonJS.start w)) = 1)
      /\ completes_unless_failed (result handler ctor fuel BabylonJS.start w)
                                 (log handler ctor fuel BabylonJS.start w)).
Proof.
  split.
  - destruct (playcanvas_wire_request handler ctor fuel w) as [Hany Hdone].
    destruct (playcanvas_solid handler ctor fuel w) as (Hrev & _ & Hone).
    split; [reflexivity|]. split; [apply playcanvas_x_span|].
    split; [apply playcanvas_ring|]. split; [by apply only_request|].
    split; [apply playcanvas_pipeline|]. split; [exact Hrev|]. split.
    + intros E. split; [by rewrite (Hdone E) | by apply Hone].
    + apply completes_or_fails; [apply playcanvas_shape | apply playcanvas_settles].
  - destruct (babylon_wire_request handler ctor fuel w) as [Hany Hdone].
    destruct (babylon_solid handler ctor fuel w) as (Hrev & _ & Hone & _).
    split; [reflexivity|]. split; [apply babylon_x_span|].
    split; [apply babylon_ring|]. split; [by apply only_request|].
    split; [apply babylon_pipeline|]. split; [exact Hrev|]. split.
    + intros E. split; [by rewrite (Hdone E) | by apply Hone].
    + apply completes_or_fails; [apply babylon_shape | apply babylon_settles].
Qed.

(** C2: in every run of either script the geometry requests are the wire,
    then the face of that wire, then the revolve of that face, no request
    is issued while another is in flight, and a run that completes has
    made all three. *)
Theorem geometry_steps_in_order fuel w :
  (pipeline (geometry (log handler ctor fuel PlayCanvas.start w))
   /\ overlap_free (log handler ctor fuel PlayCanvas.start w)
   /\ (result handler ctor fuel PlayCanvas.start w = Fulfilled ->
       length (geometry (log handler ctor fuel PlayCanvas.start w)) = 3))
  /\ (pipeline (geometry (log handler ctor fuel BabylonJS.start w))
      /\ overlap_free (log handler ctor fuel BabylonJS.start w)
      /\ (result handler ctor fuel BabylonJS.start w = Fulfilled ->
          length (geometry (log handler ctor fuel BabylonJS.start w)) = 3)).
Proof.
  split.
  - destruct (playcanvas_pipeline handler ctor fuel w) as [Hp Hn].
    split; [exact Hp|]. split; [|exact Hn].
    apply run_overlap_free; [apply playcanvas_shape | reflexivity].
  - destruct (babylon_pipeline handler ctor fuel w) as [Hp Hn].
    split; [exact Hp|]. split; [|exact Hn].
    apply run_overlap_free; [apply babylon_shape | reflexivity].
Qed.

(** C10: in every run, each drawing request made after the revolve request
    is for the handle the revolve request returned.  In the PlayCanvas
    script its style record has drawFaces false and drawEdges true, so
    the solid shows its edges only and the faceColour and faceOpacity the
    script sets (or any other) change nothing of what is shown; in the
    BabylonJS script it has drawFaces true, so the faces show in that
    colour and opacity.  A run completes unless a collaborator fails, and
    a run that completes has revolved once and drawn the solid once. *)
Theorem solid_style_differs fuel w :
  (Forall (draws_with (received is_revolve (log handler ctor fuel PlayCanvas.start w))
             (fun obj => obj !! "drawFaces" = Some (VBool false)
                         /\ obj !! "drawEdges" = Some (VBool true)
                         /\ obj !! "faceColour" = Some (VStr "#4488ff")
                         /\ obj !! "faceOpacity" = Some (VNum 0.3)
                         /\ edges_only obj))
          (draws_since_revolve (log handler ctor fuel PlayCanvas.start w))
   /\ (result handler ctor fuel PlayCanvas.start w = Fulfilled ->
       length (made is_revolve (log handler ctor fuel PlayCanvas.start w)) = 1
       /\ length (draws_since_revolve (log handler ctor fuel PlayCanvas.start w)) = 1)
   /\ completes_unless_failed (result handler ctor fuel PlayCanvas.start w)
                              (log handler ctor fuel PlayCanvas.start w))
  /\ (Forall (draws_with (received is_revolve (log handler ctor fuel BabylonJS.start w))
                (fun obj => obj !! "drawFaces" = Some (VBool true)
                            /\ obj !! "drawEdges" = Some (VBool true)
                            /\ face_layer (rendered obj)
                               = Some (VStr "#4488ff", VNum 0.3)))
             (draws_since_revolve (log handler ctor fuel BabylonJS.start w))
      /\ (result handler ctor fuel BabylonJS.start w = Fulfilled ->
          length (made is_revolve (log handler ctor fuel BabylonJS.start w)) = 1
          /\ length (draws_since_revolve (log handler ctor fuel BabylonJS.start w)) = 1)
      /\ completes_unless_failed (result handler ctor fuel BabylonJS.start w)
                                 (log handler ctor fuel BabylonJS.start w)).
Proof.
  split.
  - destruct (playcanvas_solid handler ctor fuel w) as (_ & Hdraw & Hone).
    split; [|split].
    + eapply Forall_impl; [exact Hdraw|]. intros x. apply draws_with_impl.
      intros obj (Hf & He & Hc & Ho). repeat split; try assumption;
        by apply hidden_faces.
    + intros E. split; [|by apply Hone].
      destruct (playcanvas_drawn handler ctor fuel w) as [_ H].
      destruct (H E) as (wire & solid & _ & -> & _). reflexivity.
    + apply completes_or_fails; [apply playcanvas_shape | apply playcanvas_settles].
  - destruct (babylon_solid handler ctor fuel w) as (_ & Hdraw & Hone & _).
    split; [|split].
    + eapply Forall_impl; [exact Hdraw|]. intros x. apply draws_with_impl.
      intros obj (Hf & He & Hc & Ho). repeat split; try assumption.
      by apply shown_faces.
    + intros E. split; [|by apply Hone].
      destruct (babylon_drawn handler ctor fuel w) as [_ H].
      destruct (H E) as (wire & solid & _ & -> & _). reflexivity.
    + apply completes_or_fails; [apply babylon_shape | apply babylon_settles].
Qed.

End Claims.

(** *** Sample runs *)

Example ideal_playcanvas_completes :
  result Ideal.handler Ideal.ctor 0 PlayCanvas.start 0 = Fulfilled.
Proof. vm_compute. reflexivity. Qed.

Example ideal_babylon_completes :
  result Ideal.handler Ideal.ctor 0 BabylonJS.start 0 = Fulfilled.
Proof. vm_compute. reflexivity. Qed.

Example ideal_playcanvas_calls :
  calls (log Ideal.handler Ideal.ctor 0 PlayCanvas.start 0)
  = [ InitPlayCanvas (VRef 0);
      NewBitByBitBase;
      InitBitByBit [VHandle 1; VHandle 0; VHandle 2;
                    VRec [("enableOCCT", VBool true); ("enableJSCAD", VBool false);
                          ("enableManifold", VBool false)]];
      CreatePolylineWire (VHandle 2)
        (VRec [("points",
                VArr [VArr [VNum 5; VNum 0; VNum 0]; VArr [VNum 5; VNum 3; VNum 0];
                      VArr [VNum 10; VNum 3; VNum 0]; VArr [VNum 10; VNum 0; VNum 0];
                      VArr [VNum 5; VNum 0; VNum 0]])]);
      DrawAnyAsync (VHandle 2) (VRec [("entity", VHandle 4); ("options", VRef 2)]);
      ConsoleLog "Profile wire drawn.";
      CreateFaceFromWire (VHandle 2) (VRec [("shape", VHandle 4); ("planar", VBool true)]);
      Revolve (VHandle 2) (VRef 3);
      DrawAnyAsync (VHandle 2) (VRec [("entity", VHandle 7); ("options", VRef 4)]);
      ConsoleLog "Revolved solid created and drawn." ].
Proof. vm_compute. reflexivity. Qed.

Example faulty_playcanvas_stops :
  calls (log Faulty.handler Ideal.ctor 0 PlayCanvas.start 0)
  = [ InitPlayCanvas (VRef 0);
      NewBitByBitBase;
      InitBitByBit [VHandle 1; VHandle 0; VHandle 2;
                    VRec [("enableOCCT", VBool true); ("enableJSCAD", VBool false);
                          ("enableManifold", VBool false)]];
      CreatePolylineWire (VHandle 2)
        (VRec [("points",
                VArr [VArr [VNum 5; VNum 0; VNum 0]; VArr [VNum 5; VNum 3; VNum 0];
                      VArr [VNum 10; VNum 3; VNum 0]; VArr [VNum 10; VNum 0; VNum 0];
                      VArr [VNum 5; VNum 0; VNum 0]])]);
      DrawAnyAsync (VHandle 2) (VRec [("entity", VHandle 4); ("options", VRef 2)]);
      ConsoleLog "Profile wire drawn.";
      CreateFaceFromWire (VHandle 2) (VRec [("shape", VHandle 4); ("planar", VBool true)]) ]
  /\ result Faulty.handler Ideal.ctor 0 PlayCanvas.start 0
     = Rejected (VStr "wire is not planar").
Proof. split; vm_compute; reflexivity. Qed.

(** What the scripts do not do.  A request that is not awaited overlaps
    with the next one, and a handler lets a run go on after a failure. *)
Example detached_request_overlaps :
  ~ overlap_free
      (log Ideal.handler Ideal.ctor 0
           (Detached NewBitByBitBase (Call NewBitByBitBase (fun _ => Done))) 0).
Proof. vm_compute. discriminate. Qed.

Example caught_failure_goes_on :
  let retry :=
    Try (Await (CreateFaceFromWire VUndefined VUndefined) (fun _ => Done))
        (fun _ => Done)
        (Call (ConsoleLog "still running") (fun _ => Done)) in
  result Faulty.handler Ideal.ctor 0 retry 0 = Fulfilled
  /\ calls (log Faulty.handler Ideal.ctor 0 retry 0)
     = [CreateFaceFromWire VUndefined VUndefined; ConsoleLog "still running"].
Proof. split; vm_compute; reflexivity. Qed.

(** *** Drawing *)

(** C3, as the specification states it, fails for the PlayCanvas script:
    with collaborators that always answer its run completes after two
    drawing requests, the wire and the solid, and none for an axis. *)
Lemma playcanvas_draws_no_axis :
  ~ exists axis, draws_layers PlayCanvas.start (fun wire solid => [wire; axis; solid]).
Proof.
  intros [axis H].
  destruct (H nat Ideal.handler Ideal.ctor 0 0 ideal_playcanvas_completes)
    as (wire & solid & _ & _ & styles & Hd & Hlen & _).
  destruct styles as [|a [|b [|c [|]]]]; try discriminate Hlen.
  vm_compute in Hd. discriminate Hd.
Qed.

(** C3, amended: in every run that completes, the BabylonJS script draws
    the wire, the axis polyline and the solid once each, and the
    PlayCanvas script draws the wire and the solid once each; every
    drawing request has a style record of its own. *)
Theorem draws_one_request_per_layer :
  draws_layers BabylonJS.start
    (fun wire solid => [wire; VRec [("points", of_points BabylonJS.axisPoints)]; solid])
  /\ draws_layers PlayCanvas.start (fun wire solid => [wire; solid]).
Proof.
  split; intros W handler ctor fuel w E.
  - destruct (babylon_drawn handler ctor fuel w) as [_ H].
    destruct (H E) as (wire & solid & Hw & Hs & Hd).
    exists wire, solid. split; [exact Hw|]. split; [exact Hs|].
    exists [2; 3; 5]. split; [exact Hd|]. split; [reflexivity|].
    repeat (apply NoDup_cons_2; [not_among|]). apply NoDup_nil_2.
  - destruct (playcanvas_drawn handler ctor fuel w) as [_ H].
    destruct (H E) as (wire & solid & Hw & Hs & Hd).
    exists wire, solid. split; [exact Hw|]. split; [exact Hs|].
    exists [2; 4]. split; [exact Hd|]. split; [reflexivity|].
    repeat (apply NoDup_cons_2; [not_among|]). apply NoDup_nil_2.
Qed.

(** With collaborators that always answer, the BabylonJS script draws its
    three layers. *)
Lemma ideal_babylon_layers :
  exists wire solid,
    made is_wire (log Ideal.handler Ideal.ctor 0 BabylonJS.start 0) = [wire]
    /\ made is_revolve (log Ideal.handler Ideal.ctor 0 BabylonJS.start 0) = [solid]
    /\ layered (log Ideal.handler Ideal.ctor 0 BabylonJS.start 0)
               [wire; VRec [("points", of_points BabylonJS.axisPoints)]; solid].
Proof.
  apply (proj1 draws_one_request_per_layer nat Ideal.handler Ideal.ctor 0 0).
  vm_compute. reflexivity.
Defined.

(** *** The render loop *)

(** C9, as the specification states it, fails for the PlayCanvas script:
    its run with collaborators that always answer completes without any
    request to start a render loop. *)
Lemma playcanvas_starts_no_loop : ~ loop_started_last PlayCanvas.start.
Proof.
  intros H.
  destruct (H nat Ideal.handler Ideal.ctor 0 0 ideal_playcanvas_completes) as [x Hx].
  rewrite playcanvas_no_loop in Hx. discriminate Hx.
Qed.

(** C9, amended: a run of the BabylonJS script that completes has asked
    for the render loop exactly once, as its last request; in any of its
    runs that request, if made, is the last one, passes the frame
    callback, and comes after three geometry requests and three drawing
    requests that were all answered.  The PlayCanvas script never asks for
    a render loop. *)
Theorem render_loop_started_last :
  loop_started_last BabylonJS.start
  /\ (forall (W : Type) (handler : call -> heap -> W -> reply * W)
             (ctor : string -> gmap string value) (fuel : nat) (w : W),
        let xs := exchanges (log handler ctor fuel BabylonJS.start w) in
        from_loop xs = []
        \/ exists engine scene σ r,
             from_loop xs = [Exchange (RunRenderLoop engine (BabylonJS.frame scene)) σ r]
             /\ Forall answered (before_loop xs)
             /\ length (List.filter (fun x => is_geometry (asked x)) (before_loop xs)) = 3
             /\ length (List.filter (fun x => is_draw (asked x)) (before_loop xs)) = 3)
  /\ (forall (W : Type) (handler : call -> heap -> W -> reply * W)
             (ctor : string -> gmap string value) (fuel : nat) (w : W),
        from_loop (exchanges (log handler ctor fuel PlayCanvas.start w)) = []).
Proof.
  split; [|split].
  - intros W handler ctor fuel w E.
    destruct (babylon_loop handler ctor fuel w) as [[Hnone | Hone] Hdone].
    + by destruct (Hdone E).
    + destruct Hone as (engine & scene & σ & r & Hx & _). eexists. exact Hx.
  - intros W handler ctor fuel w. apply babylon_loop.
  - intros W handler ctor fuel w. apply playcanvas_no_loop.
Qed.

(** With collaborators that always answer, the BabylonJS script ends by
    starting the render loop. *)
Lemma ideal_babylon_loop :
  exists x, from_loop (exchanges (log Ideal.handler Ideal.ctor 0 BabylonJS.start 0)) = [x].
Proof.
  apply (proj1 render_loop_started_last nat Ideal.handler Ideal.ctor 0 0).
  vm_compute. reflexivity.
Defined.

(** *** Failures *)

Lemma reply_of_elem id r tr : reply_of id tr = Some r -> Settled id r ∈ tr.
Proof.
  induction tr as [|[id' c σ|id' r'] tr IH]; simpl; intros H.
  - discriminate H.
  - apply elem_of_cons. right. by apply IH.
  - apply elem_of_cons. destruct (Nat.eqb_spec id id') as [<- | Hne].
    + left. by injection H as <-.
    + right. by apply IH.
Qed.

Section Failures.

Context {W : Type}.
Variable handler : call -> heap -> W -> reply * W.
Variable ctor : string -> gmap string value.

(** C6: in a run of either script, when a request fails the run is
    rejected with the error of that request, as it is, and the failure is
    the last event of the run: nothing is requested after it.  The scripts
    contain no handler and no loop. *)
Theorem failure_propagates fuel w p id e :
  p ∈ scripts ->
  reply_of id (log handler ctor fuel p w) = Some (Fail e) ->
  result handler ctor fuel p w = Rejected e
  /\ last (log handler ctor fuel p w) = Some (Settled id (Fail e))
  /\ free_of true Catching p
  /\ free_of true Looping p.
Proof.
  intros Hp Hr.
  assert (Hshape : free_of false Catching p /\ free_of true Catching p
                   /\ free_of true Looping p).
  { apply elem_of_cons in Hp as [-> | Hp];
      [|apply elem_of_cons in Hp as [-> | Hp]; [|by apply elem_of_nil in Hp]].
    - repeat split; apply playcanvas_shape.
    - split; [apply babylon_shape|]. split; apply babylon_shape_deep; discriminate. }
  destruct Hshape as (Hc & Hcd & Hl).
  destruct (run_verdict handler ctor fuel p (boot w) Hc) as (new & E & Hv).
  apply reply_of_elem in Hr. unfold log, result, execute in *.
  simpl in E. rewrite E in *.
  destruct (fst (run handler ctor fuel p (boot w))) as [|e0| |]; simpl in Hv;
    try (by destruct (Hv id e)).
  destruct Hv as (pre & id0 & -> & Hpre).
  apply elem_of_app in Hr as [Hr | Hr]; [by destruct (Hpre id e)|].
  apply elem_of_cons in Hr as [Hr | Hr]; [|by apply elem_of_nil in Hr].
  injection Hr as <- <-.
  repeat split; try assumption. apply last_snoc.
Qed.

End Failures.

(** A run of the PlayCanvas script in which the kernel refuses the face. *)
Lemma failure_stops_playcanvas :
  result Faulty.handler Ideal.ctor 0 PlayCanvas.start 0
  = Rejected (VStr "wire is not planar")
  /\ last (log Faulty.handler Ideal.ctor 0 PlayCanvas.start 0)
     = Some (Settled 6 (Fail (VStr "wire is not planar")))
  /\ free_of true Catching PlayCanvas.start
  /\ free_of true Looping PlayCanvas.start.
Proof.
  apply (failure_propagates Faulty.handler Ideal.ctor 0 0 PlayCanvas.start 6
           (VStr "wire is not planar")).
  - apply elem_of_cons. left. reflexivity.
  - vm_compute. reflexivity.
Defined.

(** *** Control flow *)




(** *** Handles *)

Section Handles.

Context {W : Type}.
Variable handler : call -> heap -> W -> reply * W.
Variable ctor : string -> gmap string value.


End Handles.

(** ** Beyond the claims: the whole run *)

Ltac read_run :=
  unfold follows, holds_records, frozen; cbv zeta;
  cbn [received made hd calls exchanges reply_of messages reported
       is_answered is_boot is_new is_wire is_face is_revolve is_draw
       removelast forallb andb flat_map map app asked seen answer fst snd
       Nat.eqb length option_map hd_error
       built playcanvas_records babylon_records configure fold_left take].

Ltac all_prefixes :=
  repeat (apply Forall_cons_2; [eexists; reflexivity|]); apply Forall_nil_2.

Section Conversation.

Context {W : Type}.
Variable handler : call -> heap -> W -> reply * W.
Variable ctor : string -> gmap string value.

Lemma playcanvas_follows fuel w :
  follows playcanvas_requests
    (result handler ctor fuel PlayCanvas.start w)
    (log handler ctor fuel PlayCanvas.start w).
Proof.
  wp_script PlayCanvas.start.
  all: read_run.
  all: split; [eexists; reflexivity|].
  all: split; [reflexivity|].
  all: intros E; first [discriminate E | split; reflexivity].
Qed.

Lemma babylon_follows fuel w :
  follows babylon_requests
    (result handler ctor fuel BabylonJS.start w)
    (log handler ctor fuel BabylonJS.start w).
Proof.
  wp_script BabylonJS.start.
  all: read_run.
  all: split; [eexists; reflexivity|].
  all: split; [reflexivity|].
  all: intros E; first [discriminate E | split; reflexivity].
Qed.

Lemma playcanvas_store_discipline fuel w :
  holds_records handler ctor fuel PlayCanvas.start w playcanvas_records
  /\ frozen handler ctor fuel PlayCanvas.start w.
Proof.
  unfold holds_records, frozen, final_store.
  wp_script PlayCanvas.start.
  all: read_run.
  all: split; [|all_prefixes].
  all: split; [eexists; reflexivity|].
  all: split; [reflexivity|].
  all: intros E; first [discriminate E | reflexivity].
Qed.

Lemma babylon_store_discipline fuel w :
  holds_records handler ctor fuel BabylonJS.start w babylon_records
  /\ frozen handler ctor fuel BabylonJS.start w.
Proof.
  unfold holds_records, frozen, final_store.
  wp_script BabylonJS.start.
  all: read_run.
  all: split; [|all_prefixes].
  all: split; [eexists; reflexivity|].
  all: split; [reflexivity|].
  all: intros E; first [discriminate E | reflexivity].
Qed.

Lemma playcanvas_messages fuel w :
  reported false (exchanges (log handler ctor fuel PlayCanvas.start w)) = true
  /\ messages (log handler ctor fuel PlayCanvas.start w)
     `prefix_of` ["Profile wire drawn."; "Revolved solid created and drawn."]
  /\ length (messages (log handler ctor fuel PlayCanvas.start w))
     = length (made is_draw (log handler ctor fuel PlayCanvas.start w)).
Proof.
  wp_script PlayCanvas.start.
  all: read_run.
  all: split; [reflexivity|]; split; [eexists; reflexivity | reflexivity].
Qed.

Lemma babylon_messages fuel w :
  reported false (exchanges (log handler ctor fuel BabylonJS.start w)) = true
  /\ messages (log handler ctor fuel BabylonJS.start w)
     `prefix_of` ["Profile wire drawn."; "Center axis drawn.";
                  "Revolved solid created and drawn."]
  /\ length (messages (log handler ctor fuel BabylonJS.start w))
     = length (made is_draw (log handler ctor fuel BabylonJS.start w)).
Proof.
  wp_script BabylonJS.start.
  all: read_run.
  all: split; [reflexivity|]; split; [eexists; reflexivity | reflexivity].
Qed.

End Conversation.

(** *** Assignments and constructor defaults *)

Lemma configure_overrides base fields :
  NoDup (map fst fields) -> overrides base (configure base fields) fields.
Proof.
  revert base. induction fields as [|[k v] fields IH]; intros base Hnd.
  - split; [intros k v H; by apply elem_of_nil in H | reflexivity].
  - apply NoDup_cons in Hnd as [Hk Hnd]. simpl in Hk.
    destruct (IH (<[k := v]> base) Hnd) as [Hset Hkeep].
    split.
    + intros k' v' H. apply elem_of_cons in H as [[= -> ->] | H].
      * unfold configure in *. simpl. rewrite (Hkeep k Hk). apply lookup_insert_eq.
      * by apply Hset.
    + intros k' H. simpl in H. apply not_elem_of_cons in H as [Hne H].
      unfold configure in *. simpl. rewrite (Hkeep k' H).
      by apply lookup_insert_ne.
Qed.

Lemma built_overrides ctor records :
  Forall (fun r : string * list (string * value) => NoDup (map fst (snd r))) records ->
  Forall2 (fun obj r => overrides (ctor (fst r)) obj (snd r)) (built ctor records) records.
Proof.
  induction 1 as [|r records Hr _ IH]; simpl; constructor; [|exact IH].
  by apply configure_overrides.
Qed.

Lemma prefix_overrides ctor σ records :
  Forall (fun r : string * list (string * value) => NoDup (map fst (snd r))) records ->
  σ `prefix_of` built ctor records ->
  Forall2 (fun obj r => overrides (ctor (fst r)) obj (snd r)) σ (take (length σ) records).
Proof.
  intros Hnd [k E]. pose proof (built_overrides ctor records Hnd) as H.
  rewrite E in H. apply Forall2_app_inv_l in H as (r1 & r2 & H1 & _ & ->).
  by rewrite (Forall2_length _ _ _ H1), take_app_length.
Qed.

Ltac distinct_fields :=
  repeat (apply Forall_cons_2;
          [simpl; repeat (apply NoDup_cons_2; [not_among|]); apply NoDup_nil_2|]);
  apply Forall_nil_2.

Lemma playcanvas_fields_distinct face :
  Forall (fun r : string * list (string * value) => NoDup (map fst (snd r)))
         (playcanvas_records face).
Proof. distinct_fields. Qed.

Lemma babylon_fields_distinct face :
  Forall (fun r : string * list (string * value) => NoDup (map fst (snd r)))
         (babylon_records face).
Proof. distinct_fields. Qed.

Section Extras.

Context {W : Type}.
Variable handler : call -> heap -> W -> reply * W.
Variable ctor : string -> gmap string value.

(** X1: whatever the collaborators answer, the requests of a run are a
    beginning of the script's list of requests, in its order and built
    from the answers received (every kernel and drawing request goes to
    the object the BitByBitBase constructor returned, initBitByBit gets
    the scene the bootstrap returned); every request but the last was
    answered before the next was made; a run that completes made all of
    them. *)
Theorem requests_follow_script fuel w :
  follows playcanvas_requests
    (result handler ctor fuel PlayCanvas.start w)
    (log handler ctor fuel PlayCanvas.start w)
  /\ follows babylon_requests
       (result handler ctor fuel BabylonJS.start w)
       (log handler ctor fuel BabylonJS.start w).
Proof. split; [apply playcanvas_follows | apply babylon_follows]. Qed.

(** X2: at the end of any run the store holds a beginning of the script's
    records, each one as its constructor made it plus the script's
    assignments, and all of them when the run completes; the scene
    bootstrap, the first request, already sees the scene options and the
    camera options complete. *)
Theorem records_hold_assignments fuel w :
  holds_records handler ctor fuel PlayCanvas.start w playcanvas_records
  /\ holds_records handler ctor fuel BabylonJS.start w babylon_records.
Proof. split; [apply playcanvas_store_discipline | apply babylon_store_discipline]. Qed.

(** X3: no record is assigned to after a collaborator could see it: the
    store a request saw is a beginning of the store at the end of the
    run. *)
Theorem records_frozen_once_seen fuel w :
  frozen handler ctor fuel PlayCanvas.start w
  /\ frozen handler ctor fuel BabylonJS.start w.
Proof. split; [apply playcanvas_store_discipline | apply babylon_store_discipline]. Qed.

(** X4: a console message is written right after a drawing request that
    was answered, and only then: the messages of a run are a beginning of
    the script's messages, one for every drawing that completed. *)
Theorem messages_report_drawings fuel w :
  (reported false (exchanges (log handler ctor fuel PlayCanvas.start w)) = true
   /\ messages (log handler ctor fuel PlayCanvas.start w)
      `prefix_of` ["Profile wire drawn."; "Revolved solid created and drawn."]
   /\ length (messages (log handler ctor fuel PlayCanvas.start w))
      = length (made is_draw (log handler ctor fuel PlayCanvas.start w)))
  /\ (reported false (exchanges (log handler ctor fuel BabylonJS.start w)) = true
      /\ messages (log handler ctor fuel BabylonJS.start w)
         `prefix_of` ["Profile wire drawn."; "Center axis drawn.";
                      "Revolved solid created and drawn."]
      /\ length (messages (log handler ctor fuel BabylonJS.start w))
         = length (made is_draw (log handler ctor fuel BabylonJS.start w))).
Proof. split; [apply playcanvas_messages | apply babylon_messages]. Qed.

(** X5: every record in the store of a run answers a field the script
    assigned with the value assigned, and any other field as the
    constructor left it. *)
Theorem assignments_override_defaults fuel w :
  Forall2 (fun obj r => overrides (ctor (fst r)) obj (snd r))
    (final_store handler ctor fuel PlayCanvas.start w)
    (take (length (final_store handler ctor fuel PlayCanvas.start w))
          (playcanvas_records
             (received is_face (log handler ctor fuel PlayCanvas.start w))))
  /\ Forall2 (fun obj r => overrides (ctor (fst r)) obj (snd r))
       (final_store handler ctor fuel BabylonJS.start w)
       (take (length (final_store handler ctor fuel BabylonJS.start w))
             (babylon_records
                (received is_face (log handler ctor fuel BabylonJS.start w)))).
Proof.
  split.
  - apply prefix_overrides; [apply playcanvas_fields_distinct|].
    apply playcanvas_store_discipline.
  - apply prefix_overrides; [apply babylon_fields_distinct|].
    apply babylon_store_discipline.
Qed.

(** X6: the axis indicator the BabylonJS script draws lies on the axis it
    revolves about.  In every run the drawing requests are a beginning of:
    the wire, the polyline through [axisPoints], the solid; every revolve
    request hands over a record with direction [0, 1, 0]; a run completes
    unless a collaborator fails, and a run that completes has drawn all
    three and revolved once.  That direction is not zero, both ends of the
    polyline are at distance 0 from the line through the origin along it,
    and the polyline runs from y = -7.5 to y = 7.5, past the profile on
    both sides. *)
Theorem axis_indicator_on_revolve_axis fuel w :
  drawn (log handler ctor fuel BabylonJS.start w)
  `prefix_of` [(received is_wire (log handler ctor fuel BabylonJS.start w), VRef 2);
               (VRec [("points", of_points BabylonJS.axisPoints)], VRef 3);
               (received is_revolve (log handler ctor fuel BabylonJS.start w), VRef 5)]
  /\ Forall (revolves_about (0, 1, 0)%Q 360)
            (revolve_requests (log handler ctor fuel BabylonJS.start w))
  /\ (result handler ctor fuel BabylonJS.start w = Fulfilled ->
      length (drawn (log handler ctor fuel BabylonJS.start w)) = 3
      /\ length (revolve_requests (log handler ctor fuel BabylonJS.start w)) = 1)
  /\ completes_unless_failed (result handler ctor fuel BabylonJS.start w)
                             (log handler ctor fuel BabylonJS.start w)
  /\ (dot (0, 1, 0) (0, 1, 0) == 1)%Q
  /\ Forall (fun p => axis_distance2 (0, 1, 0) p == 0)%Q BabylonJS.axisPoints
  /\ Forall2 Qeq (map py BabylonJS.axisPoints) [- (15 # 2); 15 # 2]%Q
  /\ Forall (fun p => - (15 # 2) <= py p <= 15 # 2)%Q BabylonJS.profilePoints.
Proof.
  destruct (babylon_solid handler ctor fuel w) as (Hrev & _ & Hone & Hdrawn).
  split; [exact Hdrawn|]. split; [exact Hrev|]. split; [|split; [|split; [|split; [|split]]]].
  - intros E. split; [|by apply Hone].
    destruct (babylon_drawn handler ctor fuel w) as [_ H].
    destruct (H E) as (wire & solid & _ & _ & ->). reflexivity.
  - apply completes_or_fails; [apply babylon_shape | apply babylon_settles].
  - reflexivity.
  - repeat (apply Forall_cons_2; [rewrite axis_distance2_Y; reflexivity|]).
    apply Forall_nil_2.
  - repeat constructor.
  - repeat (apply Forall_cons_2; [split; apply Qle_bool_imp_le; reflexivity|]).
    apply Forall_nil_2.
Qed.

End Extras.
